(** * go-creditdb: the HTTP client of a paged key-value store

    A shallow embedding of the Go package [creditdb]:

    - [errors.go]: the error taxonomy ([Error], [NewError], [StatusCode]);
    - the client that classifies every failure into the taxonomy
      (module [Taxonomy], from the source file that declares the
      package-level [Err...] values and [Exists]);
    - [creditdb.go]: the client that returns ad hoc errors (module [AdHoc]).

    The HTTP transport, the JSON codec and the backoff clock are
    capabilities of the environment; they are gathered in the record
    [Environment] and every operation is a function of it.  Go pointers
    are addresses into an explicit store ([World]); a nil dereference is
    a panic, which is the [None] of the monad [M]; a nil slice is the
    empty list. *)

From Stdlib Require Import ZArith.
From stdpp Require Import base option strings gmap list pretty.

(** ** Standard-library vocabulary used by the package *)

Module time.
(** [time.Duration] counts nanoseconds. *)
Definition Duration : Type := Z.
Definition Millisecond : Duration := 1000000%Z.
Definition Second : Duration := 1000000000%Z.
Definition Minute : Duration := 60000000000%Z.
End time.

Module context.
(** A caller-supplied context: the background context, or one derived
    from a parent with a deadline or a cancel function. *)
Inductive Context : Type :=
| Background
| WithDeadline (parent : Context) (deadline : Z)
| WithCancel (parent : Context).
End context.

Module http.
Definition StatusOK : Z := 200%Z.
Definition StatusBadRequest : Z := 400%Z.
Definition StatusNotFound : Z := 404%Z.
Definition StatusRequestTimeout : Z := 408%Z.
Definition StatusInternalServerError : Z := 500%Z.
Definition StatusServiceUnavailable : Z := 503%Z.

Record Transport : Type := { ResponseHeaderTimeout : time.Duration }.
Record Client : Type := { Transport_ : Transport }.

Record Request : Type := {
  Ctx : context.Context;
  Method : string;
  URL : string;
  Body : option string;
  Header : gmap string string
}.

Record Response : Type := { StatusCode : Z; RespBody : string }.

(** [req.Header.Set(key, value)] *)
Definition Header_Set (req : Request) (key value : string) : Request :=
  {| Ctx := Ctx req; Method := Method req; URL := URL req;
     Body := Body req; Header := <[key := value]> (Header req) |}.
End http.

Module json.
(** What [encoding/json] decodes into an [interface{}]. *)
#[warnings="-register-all"]
Inductive Value : Type :=
| Null
| Bool (b : bool)
| Number (literal : string)
| String (s : string)
| Array (elements : list Value)
| Object (members : list (string * Value)).
End json.

(** Why [http.Client.Do] returned an error. *)
Inductive TransportFailure : Type :=
| DeadlineExceeded     (* the context's deadline elapsed *)
| Canceled             (* the context was cancelled mid-request *)
| ConnectionRefused
| DNSFailure
| ConnectionReset.

(** ** errors.go *)

Record Error : Type := { Message : string; Category : string }.

Definition CategoryNotFound : string := "NotFound".
Definition CategoryBadRequest : string := "BadRequest".
Definition CategoryTimeout : string := "Timeout".
Definition CategoryServiceUnavailable : string := "ServiceUnavailable".
Definition CategoryInternalError : string := "InternalError".

(** [(e *Error) Error()] *)
Definition Error_Error (e : Error) : string := Message e.

Definition NewError (message category : string) : Error :=
  {| Message := message; Category := category |}.

(** [(e *Error) StatusCode()]: a [switch] on the category string, the
    first matching case wins, anything else is the [default]. *)
Definition StatusCode (e : Error) : Z :=
  if decide (Category e = CategoryNotFound) then http.StatusNotFound
  else if decide (Category e = CategoryBadRequest) then http.StatusBadRequest
  else if decide (Category e = CategoryTimeout) then http.StatusRequestTimeout
  else if decide (Category e = CategoryServiceUnavailable)
       then http.StatusServiceUnavailable
  else http.StatusInternalServerError.

(** ** Values of Go's [error] interface

    The package-level variables [ErrNotFound], ..., each hold the
    pointer returned by one call of [NewError]; [ErrorPtr] is the type of
    these five addresses and [load] reads the [Error] behind one.
    Comparing two [error] values with [==] compares the dynamic type and
    the pointer, which is equality of this inductive type. *)

Inductive ErrorPtr : Type :=
| ErrNotFound
| ErrBadRequest
| ErrInternalError
| ErrTimeout
| ErrServiceUnavailable.

Definition load (p : ErrorPtr) : Error :=
  match p with
  | ErrNotFound => NewError "resource not found" CategoryNotFound
  | ErrBadRequest => NewError "bad request" CategoryBadRequest
  | ErrInternalError => NewError "internal server error" CategoryInternalError
  | ErrTimeout => NewError "timeout" CategoryTimeout
  | ErrServiceUnavailable =>
      NewError "service unavailable" CategoryServiceUnavailable
  end.

Inductive error : Type :=
| DomainError (p : ErrorPtr)        (* a [*Error] of the taxonomy *)
| fmtError (message : string)       (* built by [fmt.Errorf] *)
| urlError (cause : TransportFailure) (* returned by [http.Client.Do] *)
| marshalError                      (* returned by [json.Marshal] *)
| decodeError                       (* returned by [json.Decoder.Decode] *)
| requestError.                     (* returned by [http.NewRequestWithContext] *)

#[global] Instance ErrorPtr_eq_dec : EqDecision ErrorPtr.
Proof. solve_decision. Defined.
#[global] Instance TransportFailure_eq_dec : EqDecision TransportFailure.
Proof. solve_decision. Defined.
#[global] Instance error_eq_dec : EqDecision error.
Proof. solve_decision. Defined.

Module fmt.
(** [fmt.Errorf(prefix + "%d", code)] *)
Definition Errorf_d (prefix : string) (code : Z) : error :=
  fmtError (prefix +:+ pretty code).
(** [fmt.Errorf(prefix + "%s", s)] *)
Definition Errorf_s (prefix s : string) : error := fmtError (prefix +:+ s).
End fmt.

(** The category a caller can read off an [error]: only a [*Error]
    carries one. *)
Definition category_of (err : error) : option string :=
  match err with
  | DomainError p => Some (Category (load p))
  | _ => None
  end.

(** The fixed five categories of the taxonomy. *)
Definition taxonomy : list string :=
  [CategoryNotFound; CategoryBadRequest; CategoryTimeout;
   CategoryServiceUnavailable; CategoryInternalError].

(** An [error] is classified when it is a [*Error] whose category is one
    of the five. *)
Definition classified (err : error) : Prop :=
  ∃ p, err = DomainError p ∧ Category (load p) ∈ taxonomy.

(** ** Data model shared by both clients *)

Record config : Type := { host : string; currentPage : N }.

(** [client] is a [*http.Client]: the address of a client in the store. *)
Record CreditDB : Type := { config_ : config; client : nat }.

Record Line : Type := { Key : string; Value : string }.

Record Page : Type := { Status : string; Page_ : N; Result : list Line }.

Definition defaultHost : string := "http://localhost:5622".
Definition defaultPage : N := 0%N.

(** The anonymous structs the operations marshal as request bodies. *)
Inductive Payload : Type :=
| setPayload (key value : string) (page : N)
| getPayload (key : string) (page : N)
| pagePayload (page : N)
| delPayload (page : N) (key : string).

Module backoff.
(** The duration-valued settings of [backoff.ExponentialBackOff]. *)
Record ExponentialBackOff : Type := {
  InitialInterval : time.Duration;
  MaxInterval : time.Duration;
  MaxElapsedTime : time.Duration
}.

(** [backoff.NewExponentialBackOff()] with the library's defaults. *)
Definition NewExponentialBackOff : ExponentialBackOff :=
  {| InitialInterval := (500 * time.Millisecond)%Z;
     MaxInterval := (60 * time.Second)%Z;
     MaxElapsedTime := (15 * time.Minute)%Z |}.
End backoff.

(** ** The environment

    - [json_Marshal]: [json.Marshal] of a request payload;
    - [url_Parse]: whether [http.NewRequestWithContext] accepts the URL;
    - [RoundTrip n req]: what the transport answers to the [n]-th request
      handed to it (counting from 0);
    - [json_DecodeLine], [json_DecodePage], [json_DecodeMap]:
      [json.NewDecoder(body).Decode] into a [Line], a [Page], a
      [map[string]interface{}];
    - [NextBackOffs b]: the delays the policy [b] hands out, in order,
      before it answers [Stop] because the elapsed budget is used up. *)
Record Environment : Type := {
  json_Marshal : Payload → option string;
  url_Parse : string → bool;
  RoundTrip : nat → http.Request → TransportFailure + http.Response;
  json_DecodeLine : string → option Line;
  json_DecodePage : string → option Page;
  json_DecodeMap : string → option (gmap string json.Value);
  NextBackOffs : backoff.ExponentialBackOff → list time.Duration
}.

(** ** The store and the monad of operations *)

Record World : Type := {
  objects : gmap nat CreditDB;        (* the [CreditDB] values, by address *)
  clients : list http.Client;         (* the [http.Client] values, by address *)
  sent : list (nat * http.Request);   (* requests handed to the transport,
                                         each with the client that sent it *)
  closed : nat                        (* response bodies closed so far *)
}.

Definition M (A : Type) : Type := World → option (A * World).

#[global] Instance M_ret : MRet M := λ A a w, Some (a, w).
#[global] Instance M_bind : MBind M :=
  λ A B f m w, match m w with Some (a, w') => f a w' | None => None end.

(** A nil pointer dereference. *)
Definition panic {A : Type} : M A := λ _, None.

(** [*c] for a [*CreditDB]. *)
Definition deref (c : nat) : M CreditDB :=
  λ w, match objects w !! c with Some o => Some (o, w) | None => panic w end.

(** [*c = o] *)
Definition store (c : nat) (o : CreditDB) : M unit :=
  λ w, match objects w !! c with
       | Some _ => Some (tt, {| objects := <[c := o]> (objects w);
                                 clients := clients w;
                                 sent := sent w; closed := closed w |})
       | None => panic w
       end.

(** [&CreditDB{...}]: a fresh address. *)
Definition new_CreditDB (o : CreditDB) : M nat :=
  λ w, let a := fresh (dom (objects w)) in
       Some (a, {| objects := <[a := o]> (objects w); clients := clients w;
                   sent := sent w; closed := closed w |}).

(** [&http.Client{...}]: the next address. *)
Definition new_Client (cl : http.Client) : M nat :=
  λ w, Some (length (clients w),
             {| objects := objects w; clients := clients w ++ [cl];
                sent := sent w; closed := closed w |}).

(** [http.NewRequestWithContext(ctx, method, url, body)]; the methods
    used by the package are all valid, so it fails on a nil context or a
    URL that does not parse. *)
Definition NewRequestWithContext (env : Environment)
    (ctx : option context.Context) (method url : string)
    (body : option string) : option http.Request :=
  match ctx with
  | None => None
  | Some cx =>
      if url_Parse env url
      then Some {| http.Ctx := cx; http.Method := method; http.URL := url;
                   http.Body := body; http.Header := ∅ |}
      else None
  end.

(** [h.Do(req)] for a [*http.Client] [h]. *)
Definition Do (env : Environment) (h : nat) (req : http.Request)
    : M (TransportFailure + http.Response) :=
  λ w, match clients w !! h with
       | None => panic w
       | Some _ =>
           Some (RoundTrip env (length (sent w)) req,
                 {| objects := objects w; clients := clients w;
                    sent := sent w ++ [(h, req)]; closed := closed w |})
       end.

(** [h.CloseIdleConnections()]: the pool of idle connections is not part
    of the store. *)
Definition CloseIdleConnections (h : nat) : M unit :=
  λ w, match clients w !! h with Some _ => Some (tt, w) | None => panic w end.

(** [resp.Body.Close()] *)
Definition Body_Close (resp : http.Response) : M unit :=
  λ w, Some (tt, {| objects := objects w; clients := clients w;
                    sent := sent w; closed := S (closed w) |}).

(** [defer resp.Body.Close()]: the rest of the function runs, then the
    body is closed, on every path. *)
Definition defer_Close {A : Type} (resp : http.Response) (rest : M A) : M A :=
  a ← rest; _ ← Body_Close resp; mret a.

(** [backoff.Retry(operation, b)] of github.com/cenkalti/backoff/v4, a
    dependency of the package: run [operation]; on success return nil; on
    failure ask the policy for the next delay, give up with the last
    error when it answers [Stop], otherwise wait and try again.  Time
    itself is not modelled: [delays] are the delays the policy still has
    to hand out before [Stop]. *)
Fixpoint retry_loop (operation : M (option error))
    (delays : list time.Duration) : M (option error) :=
  err ← operation;
  match err with
  | None => mret None
  | Some e =>
      match delays with
      | [] => mret (Some e)
      | _ :: rest => retry_loop operation rest
      end
  end.

Definition Retry (env : Environment) (operation : M (option error))
    (b : backoff.ExponentialBackOff) : M (option error) :=
  retry_loop operation (NextBackOffs env b).

(** [x, found := v.(string)] on the result of a map index. *)
Definition assert_string (v : option json.Value) : string * bool :=
  match v with
  | Some (json.String s) => (s, true)
  | _ => ("", false)
  end.

(** ** The client that classifies failures into the taxonomy *)

Module Taxonomy.
Section operations.
Variable env : Environment.

Definition Health (c : nat) (ctx : option context.Context) : M (option error) :=
  o ← deref c;
  match NewRequestWithContext env ctx "GET" (host (config_ o)) None with
  | None => mret (Some (DomainError ErrInternalError))
  | Some req =>
      r ← Do env (client o) req;
      match r with
      | inl _ => mret (Some (DomainError ErrInternalError))
      | inr resp =>
          defer_Close resp
            (if decide (http.StatusCode resp ≠ http.StatusOK)
             then mret (Some (DomainError ErrInternalError))
             else mret None)
      end
  end.

(** The local [b] of [NewClient] after its three assignments. *)
Definition probe_backoff : backoff.ExponentialBackOff :=
  let b := backoff.NewExponentialBackOff in
  let b := {| backoff.InitialInterval := (100 * time.Millisecond)%Z;
              backoff.MaxInterval := backoff.MaxInterval b;
              backoff.MaxElapsedTime := backoff.MaxElapsedTime b |} in
  let b := {| backoff.InitialInterval := backoff.InitialInterval b;
              backoff.MaxInterval := backoff.MaxInterval b;
              backoff.MaxElapsedTime := (5 * time.Second)%Z |} in
  {| backoff.InitialInterval := backoff.InitialInterval b;
     backoff.MaxInterval := (30 * time.Second)%Z;
     backoff.MaxElapsedTime := backoff.MaxElapsedTime b |}.

Definition fresh_Client : http.Client :=
  {| http.Transport_ :=
       {| http.ResponseHeaderTimeout := (5 * time.Second)%Z |} |}.

Definition default_config : config :=
  {| host := defaultHost; currentPage := defaultPage |}.

(** [NewClient()]; the result is the address of the new client, or
    [None] for the nil pointer (the message written to the log is not
    modelled). *)
Definition NewClient : M (option nat) :=
  let b := probe_backoff in
  client_ ← new_Client fresh_Client;
  clonedClient ← new_Client fresh_Client;
  clone ← new_CreditDB {| config_ := default_config; client := clonedClient |};
  let operation := Health clone (Some context.Background) in
  err ← Retry env operation b;
  match err with
  | Some _ => mret None
  | None =>
      p ← new_CreditDB {| config_ := default_config; client := client_ |};
      mret (Some p)
  end.

Definition Close (c : nat) (ctx : option context.Context) : M (option error) :=
  o ← deref c;
  _ ← CloseIdleConnections (client o);
  mret None.

Definition WithHost (c : nat) (host_ : string) : M nat :=
  o ← deref c;
  let host_ := if decide (host_ = "") then host (config_ o) else host_ in
  _ ← store c {| config_ := {| host := host_;
                               currentPage := currentPage (config_ o) |};
                 client := client o |};
  mret c.

Definition WithPage (c : nat) (page : N) : M nat :=
  o ← deref c;
  _ ← store c {| config_ := {| host := host (config_ o);
                               currentPage := page |};
                 client := client o |};
  mret c.

Definition SetLine (c : nat) (ctx : option context.Context)
    (key value : string) : M (option error) :=
  if decide (key = "" ∨ value = "") then mret (Some (DomainError ErrBadRequest))
  else
    o ← deref c;
    let setURL := host (config_ o) +:+ "/set" in
    let line := setPayload key value (currentPage (config_ o)) in
    match json_Marshal env line with
    | None => mret (Some (DomainError ErrInternalError))
    | Some setJSON =>
        match NewRequestWithContext env ctx "POST" setURL (Some setJSON) with
        | None => mret (Some (DomainError ErrInternalError))
        | Some req =>
            let req := http.Header_Set req "Content-Type" "application/json" in
            r ← Do env (client o) req;
            match r with
            | inl _ => mret (Some (DomainError ErrInternalError))
            | inr resp =>
                defer_Close resp
                  (if decide (http.StatusCode resp ≠ http.StatusOK)
                   then mret (Some (DomainError ErrBadRequest))
                   else mret None)
            end
        end
    end.

Definition GetLine (c : nat) (ctx : option context.Context) (key : string)
    : M (option Line * option error) :=
  if decide (key = "") then mret (None, Some (DomainError ErrBadRequest))
  else
    o ← deref c;
    let getURL := host (config_ o) +:+ "/get" in
    let getData := getPayload key (currentPage (config_ o)) in
    match json_Marshal env getData with
    | None => mret (None, Some (DomainError ErrInternalError))
    | Some getJSON =>
        match NewRequestWithContext env ctx "GET" getURL (Some getJSON) with
        | None => mret (None, Some (DomainError ErrInternalError))
        | Some req =>
            let req := http.Header_Set req "Content-Type" "application/json" in
            r ← Do env (client o) req;
            match r with
            | inl _ => mret (None, Some (DomainError ErrInternalError))
            | inr resp =>
                defer_Close resp
                  (if decide (http.StatusCode resp = http.StatusNotFound)
                   then mret (None, Some (DomainError ErrNotFound))
                   else if decide (http.StatusCode resp ≠ http.StatusOK)
                   then mret (None, Some (DomainError ErrBadRequest))
                   else
                     match json_DecodeLine env (http.RespBody resp) with
                     | None => mret (None, Some (DomainError ErrInternalError))
                     | Some data => mret (Some data, None)
                     end)
            end
        end
    end.

Definition GetAllLines (c : nat) (ctx : option context.Context)
    : M (list Line * option error) :=
  o ← deref c;
  let getAllURL := host (config_ o) +:+ "/getall" in
  let getAllData := pagePayload (currentPage (config_ o)) in
  match json_Marshal env getAllData with
  | None => mret ([], Some (DomainError ErrInternalError))
  | Some getAllJSON =>
      match NewRequestWithContext env ctx "GET" getAllURL (Some getAllJSON) with
      | None => mret ([], Some (DomainError ErrInternalError))
      | Some req =>
          let req := http.Header_Set req "Content-Type" "application/json" in
          r ← Do env (client o) req;
          match r with
          | inl _ => mret ([], Some (DomainError ErrInternalError))
          | inr resp =>
              defer_Close resp
                (match json_DecodePage env (http.RespBody resp) with
                 | None => mret ([], Some (DomainError ErrInternalError))
                 | Some response =>
                     if decide (Status response ≠ "OK")
                     then mret ([], Some (DomainError ErrBadRequest))
                     else mret (Result response, None)
                 end)
          end
      end
  end.

Definition DeleteLine (c : nat) (ctx : option context.Context) (key : string)
    : M (option error) :=
  if decide (key = "") then mret (Some (DomainError ErrBadRequest))
  else
    o ← deref c;
    let delURL := host (config_ o) +:+ "/delete" in
    let delData := delPayload (currentPage (config_ o)) key in
    match json_Marshal env delData with
    | None => mret (Some (DomainError ErrInternalError))
    | Some delJSON =>
        match NewRequestWithContext env ctx "DELETE" delURL (Some delJSON) with
        | None => mret (Some (DomainError ErrInternalError))
        | Some req =>
            let req := http.Header_Set req "Content-Type" "application/json" in
            r ← Do env (client o) req;
            match r with
            | inl _ => mret (Some (DomainError ErrInternalError))
            | inr resp =>
                defer_Close resp
                  (if decide (http.StatusCode resp = http.StatusNotFound)
                   then mret (Some (DomainError ErrNotFound))
                   else if decide (http.StatusCode resp ≠ http.StatusOK)
                   then mret (Some (DomainError ErrBadRequest))
                   else mret None)
            end
        end
    end.

Definition Flush (c : nat) (ctx : option context.Context) : M (option error) :=
  o ← deref c;
  let flushURL := host (config_ o) +:+ "/flush" in
  let flushData := pagePayload (currentPage (config_ o)) in
  match json_Marshal env flushData with
  | None => mret (Some (DomainError ErrInternalError))
  | Some flushJSON =>
      match NewRequestWithContext env ctx "DELETE" flushURL (Some flushJSON) with
      | None => mret (Some (DomainError ErrInternalError))
      | Some req =>
          let req := http.Header_Set req "Content-Type" "application/json" in
          r ← Do env (client o) req;
          match r with
          | inl _ => mret (Some (DomainError ErrInternalError))
          | inr resp =>
              defer_Close resp
                (if decide (http.StatusCode resp ≠ http.StatusOK)
                 then mret (Some (DomainError ErrInternalError))
                 else mret None)
          end
      end
  end.

Definition Ping (c : nat) (ctx : option context.Context)
    : M (string * option error) :=
  o ← deref c;
  let pingURL := host (config_ o) +:+ "/ping" in
  match NewRequestWithContext env ctx "GET" pingURL None with
  | None => mret ("", Some (DomainError ErrInternalError))
  | Some req =>
      r ← Do env (client o) req;
      match r with
      | inl _ => mret ("", Some (DomainError ErrInternalError))
      | inr resp =>
          defer_Close resp
            (match json_DecodeMap env (http.RespBody resp) with
             | None => mret ("", Some (DomainError ErrInternalError))
             | Some response =>
                 let '(pingValue, found) := assert_string (response !! "ping") in
                 if negb found
                 then mret ("", Some (DomainError ErrInternalError))
                 else mret (pingValue, None)
             end)
      end
  end.

Definition GetCurrentPage (c : nat) : M N :=
  o ← deref c;
  mret (currentPage (config_ o)).

Definition Exists (c : nat) (ctx : option context.Context) (key : string)
    : M (bool * option error) :=
  '(_, err) ← GetLine c ctx key;
  match err with
  | Some e =>
      if decide (e = DomainError ErrNotFound) then mret (false, None)
      else mret (false, Some e)
  | None => mret (true, None)
  end.

End operations.
End Taxonomy.

(** ** creditdb.go: the client that returns ad hoc errors

    The same operations (there is no [Exists]); every failure is handed
    back as the error of the call that failed, or as a message built by
    [fmt.Errorf].  What the source writes to the log is not modelled. *)

Module AdHoc.
Section operations.
Variable env : Environment.

Definition Health (c : nat) (ctx : option context.Context) : M (option error) :=
  o ← deref c;
  match NewRequestWithContext env ctx "GET" (host (config_ o)) None with
  | None => mret (Some requestError)
  | Some req =>
      r ← Do env (client o) req;
      match r with
      | inl cause => mret (Some (urlError cause))
      | inr resp =>
          defer_Close resp
            (if decide (http.StatusCode resp ≠ http.StatusOK)
             then mret (Some (fmt.Errorf_d
                                "health check failed with status code: "
                                (http.StatusCode resp)))
             else mret None)
      end
  end.

Definition probe_backoff : backoff.ExponentialBackOff :=
  let b := backoff.NewExponentialBackOff in
  let b := {| backoff.InitialInterval := (100 * time.Millisecond)%Z;
              backoff.MaxInterval := backoff.MaxInterval b;
              backoff.MaxElapsedTime := backoff.MaxElapsedTime b |} in
  let b := {| backoff.InitialInterval := backoff.InitialInterval b;
              backoff.MaxInterval := backoff.MaxInterval b;
              backoff.MaxElapsedTime := (5 * time.Second)%Z |} in
  {| backoff.InitialInterval := backoff.InitialInterval b;
     backoff.MaxInterval := (30 * time.Second)%Z;
     backoff.MaxElapsedTime := backoff.MaxElapsedTime b |}.

Definition fresh_Client : http.Client :=
  {| http.Transport_ :=
       {| http.ResponseHeaderTimeout := (5 * time.Second)%Z |} |}.

Definition default_config : config :=
  {| host := defaultHost; currentPage := defaultPage |}.

Definition NewClient : M (option nat) :=
  let b := probe_backoff in
  client_ ← new_Client fresh_Client;
  clonedClient ← new_Client fresh_Client;
  clone ← new_CreditDB {| config_ := default_config; client := clonedClient |};
  let operation := Health clone (Some context.Background) in
  err ← Retry env operation b;
  match err with
  | Some _ => mret None
  | None =>
      p ← new_CreditDB {| config_ := default_config; client := client_ |};
      mret (Some p)
  end.

Definition Close (c : nat) (ctx : option context.Context) : M (option error) :=
  o ← deref c;
  _ ← CloseIdleConnections (client o);
  mret None.

Definition WithHost (c : nat) (host_ : string) : M nat :=
  o ← deref c;
  let host_ := if decide (host_ = "") then host (config_ o) else host_ in
  _ ← store c {| config_ := {| host := host_;
                               currentPage := currentPage (config_ o) |};
                 client := client o |};
  mret c.

Definition WithPage (c : nat) (page : N) : M nat :=
  o ← deref c;
  _ ← store c {| config_ := {| host := host (config_ o);
                               currentPage := page |};
                 client := client o |};
  mret c.

Definition SetLine (c : nat) (ctx : option context.Context)
    (key value : string) : M (option error) :=
  o ← deref c;
  let setURL := host (config_ o) +:+ "/set" in
  let line := setPayload key value (currentPage (config_ o)) in
  match json_Marshal env line with
  | None => mret (Some marshalError)
  | Some setJSON =>
      match NewRequestWithContext env ctx "POST" setURL (Some setJSON) with
      | None => mret (Some requestError)
      | Some req =>
          let req := http.Header_Set req "Content-Type" "application/json" in
          r ← Do env (client o) req;
          match r with
          | inl cause => mret (Some (urlError cause))
          | inr resp =>
              defer_Close resp
                (if decide (http.StatusCode resp ≠ http.StatusOK)
                 then mret (Some (fmt.Errorf_d
                                    "set request failed with status code: "
                                    (http.StatusCode resp)))
                 else mret None)
          end
      end
  end.

Definition GetLine (c : nat) (ctx : option context.Context) (key : string)
    : M (option Line * option error) :=
  o ← deref c;
  let getURL := host (config_ o) +:+ "/get" in
  let getData := getPayload key (currentPage (config_ o)) in
  match json_Marshal env getData with
  | None => mret (None, Some marshalError)
  | Some getJSON =>
      match NewRequestWithContext env ctx "GET" getURL (Some getJSON) with
      | None => mret (None, Some requestError)
      | Some req =>
          let req := http.Header_Set req "Content-Type" "application/json" in
          r ← Do env (client o) req;
          match r with
          | inl cause => mret (None, Some (urlError cause))
          | inr resp =>
              defer_Close resp
                (if decide (http.StatusCode resp = http.StatusNotFound)
                 then mret (None, Some (fmtError "key not found"))
                 else if decide (http.StatusCode resp ≠ http.StatusOK)
                 then mret (None,
                            Some (fmt.Errorf_d
                                    "get request failed with status code: "
                                    (http.StatusCode resp)))
                 else
                   match json_DecodeLine env (http.RespBody resp) with
                   | None => mret (None, Some decodeError)
                   | Some data => mret (Some data, None)
                   end)
          end
      end
  end.

Definition GetAllLines (c : nat) (ctx : option context.Context)
    : M (list Line * option error) :=
  o ← deref c;
  let getAllURL := host (config_ o) +:+ "/getall" in
  let getAllData := pagePayload (currentPage (config_ o)) in
  match json_Marshal env getAllData with
  | None => mret ([], Some marshalError)
  | Some getAllJSON =>
      match NewRequestWithContext env ctx "GET" getAllURL (Some getAllJSON) with
      | None => mret ([], Some requestError)
      | Some req =>
          let req := http.Header_Set req "Content-Type" "application/json" in
          r ← Do env (client o) req;
          match r with
          | inl cause => mret ([], Some (urlError cause))
          | inr resp =>
              defer_Close resp
                (match json_DecodePage env (http.RespBody resp) with
                 | None => mret ([], Some decodeError)
                 | Some response =>
                     if decide (Status response ≠ "OK")
                     then mret ([],
                                Some (fmt.Errorf_s "api returned status "
                                        (Status response)))
                     else mret (Result response, None)
                 end)
          end
      end
  end.

Definition DeleteLine (c : nat) (ctx : option context.Context) (key : string)
    : M (option error) :=
  o ← deref c;
  let delURL := host (config_ o) +:+ "/delete" in
  let delData := delPayload (currentPage (config_ o)) key in
  match json_Marshal env delData with
  | None => mret (Some marshalError)
  | Some delJSON =>
      match NewRequestWithContext env ctx "DELETE" delURL (Some delJSON) with
      | None => mret (Some requestError)
      | Some req =>
          let req := http.Header_Set req "Content-Type" "application/json" in
          r ← Do env (client o) req;
          match r with
          | inl cause => mret (Some (urlError cause))
          | inr resp =>
              defer_Close resp
                (if decide (http.StatusCode resp = http.StatusNotFound)
                 then mret (Some (fmtError "key not found"))
                 else if decide (http.StatusCode resp ≠ http.StatusOK)
                 then mret (Some (fmt.Errorf_d
                                    "del request failed with status code: "
                                    (http.StatusCode resp)))
                 else mret None)
          end
      end
  end.

Definition Flush (c : nat) (ctx : option context.Context) : M (option error) :=
  o ← deref c;
  let flushURL := host (config_ o) +:+ "/flush" in
  let flushData := pagePayload (currentPage (config_ o)) in
  match json_Marshal env flushData with
  | None => mret (Some marshalError)
  | Some flushJSON =>
      match NewRequestWithContext env ctx "DELETE" flushURL (Some flushJSON) with
      | None => mret (Some requestError)
      | Some req =>
          let req := http.Header_Set req "Content-Type" "application/json" in
          r ← Do env (client o) req;
          match r with
          | inl cause => mret (Some (urlError cause))
          | inr resp =>
              defer_Close resp
                (if decide (http.StatusCode resp ≠ http.StatusOK)
                 then mret (Some (fmt.Errorf_d
                                    "flush request failed with status code: "
                                    (http.StatusCode resp)))
                 else mret None)
          end
      end
  end.

Definition Ping (c : nat) (ctx : option context.Context)
    : M (string * option error) :=
  o ← deref c;
  let pingURL := host (config_ o) +:+ "/ping" in
  match NewRequestWithContext env ctx "GET" pingURL None with
  | None => mret ("", Some requestError)
  | Some req =>
      r ← Do env (client o) req;
      match r with
      | inl cause => mret ("", Some (urlError cause))
      | inr resp =>
          defer_Close resp
            (match json_DecodeMap env (http.RespBody resp) with
             | None => mret ("", Some decodeError)
             | Some response =>
                 let '(pingValue, found) := assert_string (response !! "ping") in
                 if negb found
                 then mret ("", Some (fmtError "ping value not found in response"))
                 else mret (pingValue, None)
             end)
      end
  end.

Definition GetCurrentPage (c : nat) : M N :=
  o ← deref c;
  mret (currentPage (config_ o)).

End operations.
End AdHoc.

(** ** A scripted environment and a ready store, for the examples

    The transport answers the [n]-th request with the [n]-th entry of
    [script] and refuses the connection once the script is used up; the
    codec is a toy one: a non-empty body decodes to the [Line] whose key
    and value are the body, to the [Page] whose status is the body, and
    to the object with the body at ["ping"] (the body ["{}"] decodes to
    the empty object). *)

Definition scripted (script : list (TransportFailure + http.Response))
    (delays : list time.Duration) : Environment :=
  {| json_Marshal := λ _, Some "payload";
     url_Parse := λ _, true;
     RoundTrip := λ n _, default (inl ConnectionRefused) (script !! n);
     json_DecodeLine := λ body,
       if decide (body = "") then None
       else Some {| Key := body; Value := body |};
     json_DecodePage := λ body,
       if decide (body = "") then None
       else Some {| Status := body; Page_ := 0%N; Result := [] |};
     json_DecodeMap := λ body,
       if decide (body = "") then None
       else if decide (body = "{}") then Some ∅
       else Some {[ "ping" := json.String body ]};
     NextBackOffs := λ _, delays |}.

Definition empty_world : World :=
  {| objects := ∅; clients := []; sent := []; closed := 0 |}.

(** One client at address 0, with the default configuration and the
    [http.Client] at address 0. *)
Definition ready_client : CreditDB :=
  {| config_ := Taxonomy.default_config; client := 0 |}.

Definition ready_world : World :=
  {| objects := {[ 0 := ready_client ]};
     clients := [Taxonomy.fresh_Client]; sent := []; closed := 0 |}.

Definition reply (code : Z) (body : string) : TransportFailure + http.Response :=
  inr {| http.StatusCode := code; http.RespBody := body |}.

(** ** Vocabulary of the statements *)

(** The request an operation with a JSON body hands to the transport:
    the payload marshalled, the request built, the content type set. *)
Definition json_request (env : Environment) (ctx : option context.Context)
    (method url : string) (payload : Payload) : option http.Request :=
  match json_Marshal env payload with
  | None => None
  | Some js =>
      match NewRequestWithContext env ctx method url (Some js) with
      | None => None
      | Some req => Some (http.Header_Set req "Content-Type" "application/json")
      end
  end.

(** The store after the client [h] has handed [req] to the transport and
    the transport has failed. *)
Definition after_failure (w : World) (h : nat) (req : http.Request) : World :=
  {| objects := objects w; clients := clients w;
     sent := sent w ++ [(h, req)]; closed := closed w |}.

(** The store after the client [h] has handed [req] to the transport, a
    response has come back and its body has been closed. *)
Definition after_reply (w : World) (h : nat) (req : http.Request) : World :=
  {| objects := objects w; clients := clients w;
     sent := sent w ++ [(h, req)]; closed := S (closed w) |}.

(** The eight operations of the taxonomy client, and the error each
    call returns. *)
Inductive Call : Type :=
| CallSetLine (key value : string)
| CallGetLine (key : string)
| CallGetAllLines
| CallDeleteLine (key : string)
| CallFlush
| CallPing
| CallHealth
| CallExists (key : string).

Definition invoke (env : Environment) (call : Call) (c : nat)
    (ctx : option context.Context) : M (option error) :=
  match call with
  | CallSetLine key value => Taxonomy.SetLine env c ctx key value
  | CallGetLine key => r ← Taxonomy.GetLine env c ctx key; mret r.2
  | CallGetAllLines => r ← Taxonomy.GetAllLines env c ctx; mret r.2
  | CallDeleteLine key => Taxonomy.DeleteLine env c ctx key
  | CallFlush => Taxonomy.Flush env c ctx
  | CallPing => r ← Taxonomy.Ping env c ctx; mret r.2
  | CallHealth => Taxonomy.Health env c ctx
  | CallExists key => r ← Taxonomy.Exists env c ctx key; mret r.2
  end.

(** The status column of the taxonomy table of the specification; a
    category that is not in the table is mapped to 500. *)
Definition status_table : list (string * Z) :=
  [("NotFound", 404%Z); ("BadRequest", 400%Z); ("Timeout", 408%Z);
   ("ServiceUnavailable", 503%Z); ("InternalError", 500%Z)].

Definition mapped_status (category : string) : Z :=
  default 500%Z ((list_to_map status_table : gmap string Z) !! category).

(** The request of a health probe of [NewClient]. *)
Definition health_request : http.Request :=
  {| http.Ctx := context.Background; http.Method := "GET";
     http.URL := defaultHost; http.Body := None; http.Header := ∅ |}.

(** The probe that is the [n]-th request of the transport succeeds: the
    request can be built and the answer has status 200. *)
Definition probe_ok (env : Environment) (n : nat) : bool :=
  url_Parse env defaultHost &&
  match RoundTrip env n health_request with
  | inr resp => bool_decide (http.StatusCode resp = http.StatusOK)
  | inl _ => false
  end.

(** What [GetAllLines] returns after a response, in the words of the
    specification: decided by the decoded payload alone. *)
Definition page_outcome (payload : option Page) : list Line * option error :=
  match payload with
  | None => ([], Some (DomainError ErrInternalError))
  | Some page =>
      if decide (Status page = "OK") then (Result page, None)
      else ([], Some (DomainError ErrBadRequest))
  end.

(** The reading of the specification under which a deadline that elapses
    mid-request is reported with the category Timeout. *)
Definition deadline_reported_as_Timeout : Prop :=
  ∀ env call c ctx w err w' h req,
    invoke env call c ctx w = Some (err, w') →
    sent w' = sent w ++ [(h, req)] →
    RoundTrip env (length (sent w)) req = inl DeadlineExceeded →
    ∃ e, err = Some e ∧ category_of e = Some CategoryTimeout.

(** The table of the HTTP surface: the method, the path under the host
    and the payload of the request each operation sends. *)
Definition wire (call : Call) (o : CreditDB) : string * string * option Payload :=
  let page := currentPage (config_ o) in
  match call with
  | CallSetLine key value => ("POST", "/set", Some (setPayload key value page))
  | CallGetLine key => ("GET", "/get", Some (getPayload key page))
  | CallExists key => ("GET", "/get", Some (getPayload key page))
  | CallGetAllLines => ("GET", "/getall", Some (pagePayload page))
  | CallDeleteLine key => ("DELETE", "/delete", Some (delPayload page key))
  | CallFlush => ("DELETE", "/flush", Some (pagePayload page))
  | CallPing => ("GET", "/ping", None)
  | CallHealth => ("GET", "", None)
  end.

(** The errors the operations of the taxonomy client return. *)
Definition returned_errors : list error :=
  [DomainError ErrNotFound; DomainError ErrBadRequest;
   DomainError ErrInternalError].

(** A context whose deadline the examples let elapse. *)
Definition deadline_ctx : context.Context :=
  context.WithDeadline context.Background 5000000000%Z.

(** The inputs an operation of the taxonomy client refuses before it
    reads its receiver: an empty key, or an empty value for [SetLine]. *)
Definition guarded (call : Call) : bool :=
  match call with
  | CallSetLine key value => bool_decide (key = "" ∨ value = "")
  | CallGetLine key | CallDeleteLine key | CallExists key =>
      bool_decide (key = "")
  | _ => false
  end.

(** The address [c] holds a client whose transport is allocated. *)
Definition live (w : World) (c : nat) : Prop :=
  ∃ o, objects w !! c = Some o ∧ is_Some (clients w !! client o).

(** A caller that issues the calls one after the other on one client. *)
Fixpoint invoke_all (env : Environment) (calls : list Call) (c : nat)
    (ctx : option context.Context) : M (list (option error)) :=
  match calls with
  | [] => mret []
  | call :: rest =>
      err ← invoke env call c ctx;
      errs ← invoke_all env rest c ctx;
      mret (err :: errs)
  end.

(** The store with the client at [c] replaced. *)
Definition with_object (w : World) (c : nat) (o : CreditDB) : World :=
  {| objects := <[c := o]> (objects w); clients := clients w;
     sent := sent w; closed := closed w |}.

Definition set_page (o : CreditDB) (p : N) : CreditDB :=
  {| config_ := {| host := host (config_ o); currentPage := p |};
     client := client o |}.

Definition set_host (o : CreditDB) (h : string) : CreditDB :=
  {| config_ := {| host := h; currentPage := currentPage (config_ o) |};
     client := client o |}.

(** The seven operations both clients have, what a call returns beside
    its error, and a call of each client. *)
Inductive Op : Type :=
| OpSetLine (key value : string)
| OpGetLine (key : string)
| OpGetAllLines
| OpDeleteLine (key : string)
| OpFlush
| OpPing
| OpHealth.

Inductive Returned : Type :=
| NoValue
| ALine (line : option Line)
| SomeLines (lines : list Line)
| AString (s : string).

Definition run_Taxonomy (env : Environment) (op : Op) (c : nat)
    (ctx : option context.Context) : M (Returned * option error) :=
  match op with
  | OpSetLine key value =>
      err ← Taxonomy.SetLine env c ctx key value; mret (NoValue, err)
  | OpGetLine key => r ← Taxonomy.GetLine env c ctx key; mret (ALine r.1, r.2)
  | OpGetAllLines =>
      r ← Taxonomy.GetAllLines env c ctx; mret (SomeLines r.1, r.2)
  | OpDeleteLine key =>
      err ← Taxonomy.DeleteLine env c ctx key; mret (NoValue, err)
  | OpFlush => err ← Taxonomy.Flush env c ctx; mret (NoValue, err)
  | OpPing => r ← Taxonomy.Ping env c ctx; mret (AString r.1, r.2)
  | OpHealth => err ← Taxonomy.Health env c ctx; mret (NoValue, err)
  end.

Definition run_AdHoc (env : Environment) (op : Op) (c : nat)
    (ctx : option context.Context) : M (Returned * option error) :=
  match op with
  | OpSetLine key value =>
      err ← AdHoc.SetLine env c ctx key value; mret (NoValue, err)
  | OpGetLine key => r ← AdHoc.GetLine env c ctx key; mret (ALine r.1, r.2)
  | OpGetAllLines => r ← AdHoc.GetAllLines env c ctx; mret (SomeLines r.1, r.2)
  | OpDeleteLine key =>
      err ← AdHoc.DeleteLine env c ctx key; mret (NoValue, err)
  | OpFlush => err ← AdHoc.Flush env c ctx; mret (NoValue, err)
  | OpPing => r ← AdHoc.Ping env c ctx; mret (AString r.1, r.2)
  | OpHealth => err ← AdHoc.Health env c ctx; mret (NoValue, err)
  end.

Definition op_guarded (op : Op) : bool :=
  match op with
  | OpSetLine key value => bool_decide (key = "" ∨ value = "")
  | OpGetLine key | OpDeleteLine key => bool_decide (key = "")
  | _ => false
  end.

(** Two runs agree: both panic, or both return the same value and leave
    the same store, and one has an error exactly when the other has. *)
Definition agree {A : Type}
    (r1 r2 : option ((A * option error) * World)) : Prop :=
  match r1, r2 with
  | None, None => True
  | Some ((v1, e1), w1), Some ((v2, e2), w2) =>
      v1 = v2 ∧ w1 = w2 ∧ (e1 = None ↔ e2 = None)
  | _, _ => False
  end.

(** * Properties *)

(** ** Proof tools *)

(** Run the monad: unfold its operations and the primitives of the store. *)
Ltac run :=
  unfold defer_Close, Body_Close, Do, deref, store, CloseIdleConnections,
    panic, mbind, M_bind, mret, M_ret in *.

(** The preparation common to the operations with a JSON body: the
    receiver is read, the payload marshalled, the request built and
    sent, and the transport has answered. *)
Ltac prepare env Hc Hcl Hreq Hrep :=
  unfold json_request, after_reply, after_failure in *; run;
  rewrite Hc;
  destruct (json_Marshal env _) as [js|]; [|done];
  destruct (NewRequestWithContext env _ _ _ _) as [req0|]; [|done];
  simplify_eq; rewrite Hcl, Hrep;
  unfold http.StatusNotFound, http.StatusOK.

(** Every path of an operation, one goal each. *)
Ltac crunch := run; repeat (case_match; simplify_eq/=).

Ltac unfold_operations H :=
  unfold invoke, Taxonomy.Exists, Taxonomy.SetLine, Taxonomy.GetLine,
    Taxonomy.GetAllLines, Taxonomy.DeleteLine, Taxonomy.Flush, Taxonomy.Ping,
    Taxonomy.Health in H.

Ltac unfold_adhoc H :=
  unfold AdHoc.SetLine, AdHoc.GetLine, AdHoc.GetAllLines, AdHoc.DeleteLine,
    AdHoc.Flush, AdHoc.Ping, AdHoc.Health, fmt.Errorf_d, fmt.Errorf_s in H.

(** Two request logs that differ by one request name the same request;
    a log is not its own extension. *)
Ltac sent_once :=
  match goal with
  | H : ?l ++ [_] = ?l ++ [_] |- _ => apply app_inv_head in H; simplify_eq/=
  | H : ?l = ?l ++ [_] |- _ =>
      exfalso; apply (f_equal length) in H; rewrite length_app in H;
      simpl in H; lia
  end.

Ltac unfold_goal :=
  unfold invoke, Taxonomy.Exists, Taxonomy.SetLine, Taxonomy.GetLine,
    Taxonomy.GetAllLines, Taxonomy.DeleteLine, Taxonomy.Flush, Taxonomy.Ping,
    Taxonomy.Health.

Ltac unfold_both :=
  unfold run_Taxonomy, run_AdHoc,
    Taxonomy.SetLine, Taxonomy.GetLine, Taxonomy.GetAllLines,
    Taxonomy.DeleteLine, Taxonomy.Flush, Taxonomy.Ping, Taxonomy.Health,
    AdHoc.SetLine, AdHoc.GetLine, AdHoc.GetAllLines, AdHoc.DeleteLine,
    AdHoc.Flush, AdHoc.Ping, AdHoc.Health, fmt.Errorf_d, fmt.Errorf_s.

Lemma World_eta (w : World) :
  {| objects := objects w; clients := clients w;
     sent := sent w; closed := closed w |} = w.
Proof. by destruct w. Qed.

(** ** The error taxonomy *)

(** C7.  The status code of a Domain Error is a total function of its
    category: it is the code the table gives for the category, 404 for
    NotFound, 400 for BadRequest, 408 for Timeout, 503 for
    ServiceUnavailable and 500 for InternalError, and 500 for every
    category that is not in the table. *)
Theorem StatusCode_total (e : Error) :
  StatusCode e = mapped_status (Category e)
  ∧ mapped_status CategoryNotFound = 404%Z
  ∧ mapped_status CategoryBadRequest = 400%Z
  ∧ mapped_status CategoryTimeout = 408%Z
  ∧ mapped_status CategoryServiceUnavailable = 503%Z
  ∧ mapped_status CategoryInternalError = 500%Z.
Proof.
  split; [|by repeat split].
  unfold StatusCode, mapped_status, status_table.
  destruct e as [m cat]; simpl.
  repeat case_decide; subst; try reflexivity.
  unfold CategoryNotFound, CategoryBadRequest, CategoryTimeout,
    CategoryServiceUnavailable in *.
  destruct (decide (cat = "InternalError")) as [->|Hne]; [reflexivity|].
  rewrite !lookup_insert_ne by congruence.
  by rewrite lookup_empty.
Qed.

Example StatusCode_of_the_package_errors :
  StatusCode (load ErrNotFound) = 404%Z
  ∧ StatusCode (load ErrBadRequest) = 400%Z
  ∧ StatusCode (load ErrTimeout) = 408%Z
  ∧ StatusCode (load ErrServiceUnavailable) = 503%Z
  ∧ StatusCode (load ErrInternalError) = 500%Z
  ∧ StatusCode (NewError "short and stout" "Teapot") = 500%Z.
Proof. repeat split; reflexivity. Qed.

(** ** Configuration *)

(** C9.  The mutators are builder-style.  For a client at address [c]:
    [WithPage p] returns [c] itself and the client at [c] now has the
    page [p], host and transport as before, so that [GetCurrentPage]
    returns [p]; [WithHost h] with [h] non-empty returns [c] itself and
    the client at [c] now has the host [h]; [WithHost ""] returns [c] and
    leaves the whole store as it was. *)
Theorem mutators_are_builders (c : nat) (o : CreditDB) (w : World) (p : N)
    (h : string) (Hc : objects w !! c = Some o) (Hh : h ≠ "") :
  (∃ w1, Taxonomy.WithPage c p w = Some (c, w1)
         ∧ objects w1 =
             <[c := {| config_ := {| host := host (config_ o);
                                     currentPage := p |};
                       client := client o |}]> (objects w)
         ∧ clients w1 = clients w ∧ sent w1 = sent w
         ∧ Taxonomy.GetCurrentPage c w1 = Some (p, w1))
  ∧ (∃ w2, Taxonomy.WithHost c h w = Some (c, w2)
         ∧ objects w2 =
             <[c := {| config_ := {| host := h;
                                     currentPage := currentPage (config_ o) |};
                       client := client o |}]> (objects w)
         ∧ clients w2 = clients w ∧ sent w2 = sent w)
  ∧ Taxonomy.WithHost c "" w = Some (c, w).
Proof.
  split; [|split].
  - unfold Taxonomy.WithPage, Taxonomy.GetCurrentPage. run.
    rewrite Hc; simpl; rewrite Hc.
    eexists; split; [reflexivity|]; simpl.
    by rewrite lookup_insert_eq.
  - unfold Taxonomy.WithHost. run.
    rewrite Hc; simpl; rewrite Hc, decide_False by done.
    eexists; split; [reflexivity|]; done.
  - unfold Taxonomy.WithHost. run.
    rewrite Hc; simpl; rewrite Hc.
    destruct o as [[ho pg] cl]; simpl.
    rewrite insert_id by done.
    by rewrite World_eta.
Qed.

Lemma mutators_are_builders_witness :
  (∃ w1, Taxonomy.WithPage 0 7%N ready_world = Some (0, w1)
         ∧ objects w1 =
             <[0 := {| config_ := {| host := defaultHost; currentPage := 7%N |};
                       client := 0 |}]> (objects ready_world)
         ∧ clients w1 = clients ready_world ∧ sent w1 = sent ready_world
         ∧ Taxonomy.GetCurrentPage 0 w1 = Some (7%N, w1))
  ∧ (∃ w2, Taxonomy.WithHost 0 "http://db:5622" ready_world = Some (0, w2)
         ∧ objects w2 =
             <[0 := {| config_ := {| host := "http://db:5622";
                                     currentPage := 0%N |};
                       client := 0 |}]> (objects ready_world)
         ∧ clients w2 = clients ready_world ∧ sent w2 = sent ready_world)
  ∧ Taxonomy.WithHost 0 "" ready_world = Some (0, ready_world).
Proof.
  apply (mutators_are_builders 0 ready_client ready_world 7%N "http://db:5622").
  - reflexivity.
  - discriminate.
Defined.

(** ** The derived operation *)

(** C8.  [Exists] calls [GetLine] and translates its outcome: an error of
    category NotFound becomes [(false, nil)], any other error is handed
    on unchanged together with [false], and success becomes
    [(true, nil)]; the store is left as [GetLine] left it (and [Exists]
    panics exactly when [GetLine] does). *)
Theorem Exists_translates_GetLine (env : Environment) (c : nat)
    (ctx : option context.Context) (key : string) (w : World) :
  match Taxonomy.GetLine env c ctx key w with
  | None => Taxonomy.Exists env c ctx key w = None
  | Some ((_, Some e), w') =>
      if decide (category_of e = Some CategoryNotFound)
      then Taxonomy.Exists env c ctx key w = Some ((false, None), w')
      else Taxonomy.Exists env c ctx key w = Some ((false, Some e), w')
  | Some ((_, None), w') =>
      Taxonomy.Exists env c ctx key w = Some ((true, None), w')
  end.
Proof.
  unfold Taxonomy.Exists. run.
  destruct (Taxonomy.GetLine env c ctx key w) as [[[l [e|]] w']|]; simpl;
    [|reflexivity|reflexivity].
  destruct e as [p| | | | |]; [destruct p|..]; simpl;
    repeat case_decide; simplify_eq; reflexivity.
Qed.

Example Exists_absent_key :
  ∃ w', Taxonomy.Exists (scripted [reply 404 ""] []) 0
          (Some context.Background) "k" ready_world = Some ((false, None), w').
Proof. eexists. vm_compute. reflexivity. Qed.

Example Exists_present_key :
  ∃ w', Taxonomy.Exists (scripted [reply 200 "v"] []) 0
          (Some context.Background) "k" ready_world = Some ((true, None), w').
Proof. eexists. vm_compute. reflexivity. Qed.

Example Exists_rejected_key :
  ∃ w', Taxonomy.Exists (scripted [reply 400 ""] []) 0
          (Some context.Background) "k" ready_world
        = Some ((false, Some (DomainError ErrBadRequest)), w').
Proof. eexists. vm_compute. reflexivity. Qed.

(** ** The protocol layer of the taxonomy client *)

Section TaxonomyProtocol.
Variable env : Environment.

Lemma GetLine_empty_key c ctx w :
  Taxonomy.GetLine env c ctx "" w
  = Some ((None, Some (DomainError ErrBadRequest)), w).
Proof. reflexivity. Qed.

Lemma GetLine_reply c o cl ctx key w req resp :
  key ≠ "" →
  objects w !! c = Some o →
  clients w !! client o = Some cl →
  json_request env ctx "GET" (host (config_ o) +:+ "/get")
    (getPayload key (currentPage (config_ o))) = Some req →
  RoundTrip env (length (sent w)) req = inr resp →
  Taxonomy.GetLine env c ctx key w =
    Some (if decide (http.StatusCode resp = 404%Z)
          then (None, Some (DomainError ErrNotFound))
          else if decide (http.StatusCode resp = 200%Z)
          then match json_DecodeLine env (http.RespBody resp) with
               | Some data => (Some data, None)
               | None => (None, Some (DomainError ErrInternalError))
               end
          else (None, Some (DomainError ErrBadRequest)),
          after_reply w (client o) req).
Proof.
  intros Hkey Hc Hcl Hreq Hrep.
  unfold Taxonomy.GetLine. rewrite decide_False by done.
  prepare env Hc Hcl Hreq Hrep.
  repeat case_decide; try done.
  by destruct (json_DecodeLine env _).
Qed.

Lemma DeleteLine_empty_key c ctx w :
  Taxonomy.DeleteLine env c ctx "" w
  = Some (Some (DomainError ErrBadRequest), w).
Proof. reflexivity. Qed.

Lemma DeleteLine_reply c o cl ctx key w req resp :
  key ≠ "" →
  objects w !! c = Some o →
  clients w !! client o = Some cl →
  json_request env ctx "DELETE" (host (config_ o) +:+ "/delete")
    (delPayload (currentPage (config_ o)) key) = Some req →
  RoundTrip env (length (sent w)) req = inr resp →
  Taxonomy.DeleteLine env c ctx key w =
    Some (if decide (http.StatusCode resp = 404%Z)
          then Some (DomainError ErrNotFound)
          else if decide (http.StatusCode resp = 200%Z) then None
          else Some (DomainError ErrBadRequest),
          after_reply w (client o) req).
Proof.
  intros Hkey Hc Hcl Hreq Hrep.
  unfold Taxonomy.DeleteLine. rewrite decide_False by done.
  prepare env Hc Hcl Hreq Hrep.
  by repeat case_decide.
Qed.

Lemma SetLine_guard c ctx key value w :
  key = "" ∨ value = "" →
  Taxonomy.SetLine env c ctx key value w
  = Some (Some (DomainError ErrBadRequest), w).
Proof.
  intros H. unfold Taxonomy.SetLine. by rewrite decide_True.
Qed.

Lemma SetLine_marshal_failure c o ctx key value w :
  key ≠ "" → value ≠ "" →
  objects w !! c = Some o →
  json_Marshal env (setPayload key value (currentPage (config_ o))) = None →
  Taxonomy.SetLine env c ctx key value w
  = Some (Some (DomainError ErrInternalError), w).
Proof.
  intros Hk Hv Hc Hm. unfold Taxonomy.SetLine.
  rewrite decide_False by (intros [?|?]; done).
  run. by rewrite Hc, Hm.
Qed.

Lemma SetLine_transport_failure c o cl ctx key value w req cause :
  key ≠ "" → value ≠ "" →
  objects w !! c = Some o →
  clients w !! client o = Some cl →
  json_request env ctx "POST" (host (config_ o) +:+ "/set")
    (setPayload key value (currentPage (config_ o))) = Some req →
  RoundTrip env (length (sent w)) req = inl cause →
  Taxonomy.SetLine env c ctx key value w
  = Some (Some (DomainError ErrInternalError), after_failure w (client o) req).
Proof.
  intros Hk Hv Hc Hcl Hreq Hrep. unfold Taxonomy.SetLine.
  rewrite decide_False by (intros [?|?]; done).
  by prepare env Hc Hcl Hreq Hrep.
Qed.

Lemma SetLine_reply c o cl ctx key value w req resp :
  key ≠ "" → value ≠ "" →
  objects w !! c = Some o →
  clients w !! client o = Some cl →
  json_request env ctx "POST" (host (config_ o) +:+ "/set")
    (setPayload key value (currentPage (config_ o))) = Some req →
  RoundTrip env (length (sent w)) req = inr resp →
  Taxonomy.SetLine env c ctx key value w =
    Some (if decide (http.StatusCode resp = 200%Z) then None
          else Some (DomainError ErrBadRequest),
          after_reply w (client o) req).
Proof.
  intros Hk Hv Hc Hcl Hreq Hrep. unfold Taxonomy.SetLine.
  rewrite decide_False by (intros [?|?]; done).
  prepare env Hc Hcl Hreq Hrep.
  by repeat case_decide.
Qed.

Lemma GetAllLines_reply c o cl ctx w req resp :
  objects w !! c = Some o →
  clients w !! client o = Some cl →
  json_request env ctx "GET" (host (config_ o) +:+ "/getall")
    (pagePayload (currentPage (config_ o))) = Some req →
  RoundTrip env (length (sent w)) req = inr resp →
  Taxonomy.GetAllLines env c ctx w =
    Some (page_outcome (json_DecodePage env (http.RespBody resp)),
          after_reply w (client o) req).
Proof.
  intros Hc Hcl Hreq Hrep. unfold Taxonomy.GetAllLines, page_outcome.
  prepare env Hc Hcl Hreq Hrep.
  destruct (json_DecodePage env _) as [page|]; [|done].
  by repeat case_decide.
Qed.

Lemma Ping_reply c o cl ctx w req resp :
  objects w !! c = Some o →
  clients w !! client o = Some cl →
  NewRequestWithContext env ctx "GET" (host (config_ o) +:+ "/ping") None
    = Some req →
  RoundTrip env (length (sent w)) req = inr resp →
  Taxonomy.Ping env c ctx w =
    Some (match json_DecodeMap env (http.RespBody resp) with
          | Some response =>
              match response !! "ping" with
              | Some (json.String pingValue) => (pingValue, None)
              | _ => ("", Some (DomainError ErrInternalError))
              end
          | None => ("", Some (DomainError ErrInternalError))
          end,
          after_reply w (client o) req).
Proof.
  intros Hc Hcl Hreq Hrep. unfold Taxonomy.Ping, after_reply. run.
  rewrite Hc, Hreq, Hcl, Hrep.
  destruct (json_DecodeMap env _) as [response|]; [|done].
  unfold assert_string.
  by destruct (response !! "ping") as [[]|].
Qed.

End TaxonomyProtocol.

(** C3.  [GetLine] with an empty key fails with BadRequest and leaves the
    store as it was, so the transport is not contacted.  With a non-empty
    key, once the transport has answered the request: status 404 gives
    NotFound, any other status but 200 gives BadRequest, status 200 with
    a body that does not decode as a [Line] gives InternalError and with
    a body that decodes gives that [Line] and no error.  [DeleteLine]
    with a non-empty key maps 404 to NotFound, any other status but 200
    to BadRequest and 200 to success. *)
Theorem GetLine_DeleteLine_classification (env : Environment) :
  (∀ c ctx w,
     Taxonomy.GetLine env c ctx "" w
     = Some ((None, Some (DomainError ErrBadRequest)), w))
  ∧ (∀ c o cl ctx key w req resp,
       key ≠ "" →
       objects w !! c = Some o →
       clients w !! client o = Some cl →
       json_request env ctx "GET" (host (config_ o) +:+ "/get")
         (getPayload key (currentPage (config_ o))) = Some req →
       RoundTrip env (length (sent w)) req = inr resp →
       ∃ out,
         Taxonomy.GetLine env c ctx key w
         = Some (out, after_reply w (client o) req)
         ∧ (http.StatusCode resp = 404%Z →
            out = (None, Some (DomainError ErrNotFound)))
         ∧ (http.StatusCode resp ≠ 404%Z → http.StatusCode resp ≠ 200%Z →
            out = (None, Some (DomainError ErrBadRequest)))
         ∧ (http.StatusCode resp = 200%Z →
            json_DecodeLine env (http.RespBody resp) = None →
            out = (None, Some (DomainError ErrInternalError)))
         ∧ (∀ data,
              http.StatusCode resp = 200%Z →
              json_DecodeLine env (http.RespBody resp) = Some data →
              out = (Some data, None)))
  ∧ (∀ c o cl ctx key w req resp,
       key ≠ "" →
       objects w !! c = Some o →
       clients w !! client o = Some cl →
       json_request env ctx "DELETE" (host (config_ o) +:+ "/delete")
         (delPayload (currentPage (config_ o)) key) = Some req →
       RoundTrip env (length (sent w)) req = inr resp →
       ∃ err,
         Taxonomy.DeleteLine env c ctx key w
         = Some (err, after_reply w (client o) req)
         ∧ (http.StatusCode resp = 404%Z →
            err = Some (DomainError ErrNotFound))
         ∧ (http.StatusCode resp ≠ 404%Z → http.StatusCode resp ≠ 200%Z →
            err = Some (DomainError ErrBadRequest))
         ∧ (http.StatusCode resp = 200%Z → err = None)).
Proof.
  split; [|split].
  - apply GetLine_empty_key.
  - intros c o cl ctx key w req resp Hkey Hc Hcl Hreq Hrep.
    eexists; split; [by eapply GetLine_reply|].
    repeat split; intros; repeat case_decide; simplify_eq;
      try done; try congruence;
      by match goal with H : json_DecodeLine _ _ = _ |- _ => rewrite H end.
  - intros c o cl ctx key w req resp Hkey Hc Hcl Hreq Hrep.
    eexists; split; [by eapply DeleteLine_reply|].
    repeat split; intros; repeat case_decide; simplify_eq;
      try done; congruence.
Qed.

Lemma GetLine_DeleteLine_classification_witness :
  (∃ w', Taxonomy.GetLine (scripted [reply 404 ""] []) 0
           (Some context.Background) "k" ready_world
         = Some ((None, Some (DomainError ErrNotFound)), w'))
  ∧ (∃ w', Taxonomy.DeleteLine (scripted [reply 200 ""] []) 0
             (Some context.Background) "k" ready_world
           = Some (None, w')).
Proof.
  split.
  - destruct (GetLine_DeleteLine_classification (scripted [reply 404 ""] []))
      as (_ & HG & _).
    edestruct (HG 0 ready_client Taxonomy.fresh_Client
                 (Some context.Background) "k" ready_world)
      as (out & Hrun & H404 & _);
      [discriminate | reflexivity | reflexivity | reflexivity | reflexivity |].
    eexists. rewrite Hrun, H404; reflexivity.
  - destruct (GetLine_DeleteLine_classification (scripted [reply 200 ""] []))
      as (_ & _ & HD).
    edestruct (HD 0 ready_client Taxonomy.fresh_Client
                 (Some context.Background) "k" ready_world)
      as (err & Hrun & _ & _ & H200);
      [discriminate | reflexivity | reflexivity | reflexivity | reflexivity |].
    eexists. rewrite Hrun, H200; reflexivity.
Defined.

(** C5.  The outcome of [GetAllLines] is decided by the decoded payload
    alone: whatever the status code [code] of the response, a body that
    does not decode as a [Page] gives InternalError, a payload whose
    status is not "OK" gives BadRequest, and a payload whose status is
    "OK" gives its sequence of lines, in order, and no error. *)
Theorem GetAllLines_payload_decides (env : Environment) (c : nat)
    (o : CreditDB) (cl : http.Client) (ctx : option context.Context)
    (w : World) (req : http.Request) (code : Z) (body : string)
    (Hc : objects w !! c = Some o)
    (Hcl : clients w !! client o = Some cl)
    (Hreq : json_request env ctx "GET" (host (config_ o) +:+ "/getall")
              (pagePayload (currentPage (config_ o))) = Some req)
    (Hrep : RoundTrip env (length (sent w)) req
            = inr {| http.StatusCode := code; http.RespBody := body |}) :
  ∃ out,
    Taxonomy.GetAllLines env c ctx w = Some (out, after_reply w (client o) req)
    ∧ out = page_outcome (json_DecodePage env body)
    ∧ (json_DecodePage env body = None →
       out = ([], Some (DomainError ErrInternalError)))
    ∧ (∀ page, json_DecodePage env body = Some page → Status page ≠ "OK" →
       out = ([], Some (DomainError ErrBadRequest)))
    ∧ (∀ page, json_DecodePage env body = Some page → Status page = "OK" →
       out = (Result page, None)).
Proof.
  eexists; split; [by eapply GetAllLines_reply|].
  simpl; unfold page_outcome.
  repeat split; intros;
    match goal with H : json_DecodePage _ _ = _ |- _ => rewrite H end;
    by repeat case_decide.
Qed.

Lemma GetAllLines_payload_decides_witness :
  ∃ out w',
    Taxonomy.GetAllLines (scripted [reply 200 "FAILED"] []) 0
      (Some context.Background) ready_world = Some (out, w')
    ∧ out = ([], Some (DomainError ErrBadRequest)).
Proof.
  edestruct (GetAllLines_payload_decides (scripted [reply 200 "FAILED"] []) 0
               ready_client Taxonomy.fresh_Client (Some context.Background)
               ready_world)
    as (out & Hrun & -> & _);
    [reflexivity | reflexivity | reflexivity | reflexivity |].
  eexists _, _. split; [exact Hrun | reflexivity].
Defined.

Example GetAllLines_ok_with_status_500 :
  ∃ w', Taxonomy.GetAllLines (scripted [reply 500 "OK"] []) 0
          (Some context.Background) ready_world = Some (([], None), w').
Proof. eexists. vm_compute. reflexivity. Qed.

(** ** [SetLine] and [Ping] of the taxonomy client *)

(** [SetLine] of the taxonomy client: an empty key or an empty value
    gives BadRequest and leaves the store, the log of requests included,
    as it was; with both non-empty, a payload that cannot be marshalled
    gives InternalError before anything is sent, a transport failure
    gives InternalError, a response with a status other than 200 gives
    BadRequest and a response with status 200 gives no error. *)
Theorem Taxonomy_SetLine_classification (env : Environment) :
  (∀ c ctx key value w,
     key = "" ∨ value = "" →
     Taxonomy.SetLine env c ctx key value w
     = Some (Some (DomainError ErrBadRequest), w))
  ∧ (∀ c o ctx key value w,
       key ≠ "" → value ≠ "" →
       objects w !! c = Some o →
       json_Marshal env (setPayload key value (currentPage (config_ o))) = None →
       Taxonomy.SetLine env c ctx key value w
       = Some (Some (DomainError ErrInternalError), w))
  ∧ (∀ c o cl ctx key value w req cause,
       key ≠ "" → value ≠ "" →
       objects w !! c = Some o →
       clients w !! client o = Some cl →
       json_request env ctx "POST" (host (config_ o) +:+ "/set")
         (setPayload key value (currentPage (config_ o))) = Some req →
       RoundTrip env (length (sent w)) req = inl cause →
       Taxonomy.SetLine env c ctx key value w
       = Some (Some (DomainError ErrInternalError),
               after_failure w (client o) req))
  ∧ (∀ c o cl ctx key value w req resp,
       key ≠ "" → value ≠ "" →
       objects w !! c = Some o →
       clients w !! client o = Some cl →
       json_request env ctx "POST" (host (config_ o) +:+ "/set")
         (setPayload key value (currentPage (config_ o))) = Some req →
       RoundTrip env (length (sent w)) req = inr resp →
       ∃ err,
         Taxonomy.SetLine env c ctx key value w
         = Some (err, after_reply w (client o) req)
         ∧ (http.StatusCode resp ≠ 200%Z →
            err = Some (DomainError ErrBadRequest))
         ∧ (http.StatusCode resp = 200%Z → err = None)).
Proof.
  split; [|split; [|split]].
  - intros. by apply SetLine_guard.
  - intros. by eapply SetLine_marshal_failure.
  - intros. by eapply SetLine_transport_failure.
  - intros c o cl ctx key value w req resp Hk Hv Hc Hcl Hreq Hrep.
    eexists; split; [by eapply SetLine_reply|].
    split; intros; by case_decide.
Qed.

Lemma Taxonomy_SetLine_classification_witness :
  Taxonomy.SetLine (scripted [reply 200 ""] []) 0 (Some context.Background)
    "" "v" ready_world
  = Some (Some (DomainError ErrBadRequest), ready_world).
Proof.
  destruct (Taxonomy_SetLine_classification (scripted [reply 200 ""] []))
    as (Hguard & _).
  apply Hguard. by left.
Defined.

(** [Ping] of the taxonomy client never looks at the status code: once
    the transport has answered, with whatever status [code], a body that
    decodes to an object with a string at "ping" gives that string and no
    error; an object without a string there, or a body that does not
    decode, gives InternalError. *)
Theorem Taxonomy_Ping_ignores_status (env : Environment) (c : nat)
    (o : CreditDB) (cl : http.Client) (ctx : option context.Context)
    (w : World) (req : http.Request) (code : Z) (body : string)
    (Hc : objects w !! c = Some o)
    (Hcl : clients w !! client o = Some cl)
    (Hreq : NewRequestWithContext env ctx "GET" (host (config_ o) +:+ "/ping")
              None = Some req)
    (Hrep : RoundTrip env (length (sent w)) req
            = inr {| http.StatusCode := code; http.RespBody := body |}) :
  ∃ out,
    Taxonomy.Ping env c ctx w = Some (out, after_reply w (client o) req)
    ∧ (∀ response pingValue,
         json_DecodeMap env body = Some response →
         response !! "ping" = Some (json.String pingValue) →
         out = (pingValue, None))
    ∧ (∀ response,
         json_DecodeMap env body = Some response →
         (∀ s, response !! "ping" ≠ Some (json.String s)) →
         out = ("", Some (DomainError ErrInternalError)))
    ∧ (json_DecodeMap env body = None →
       out = ("", Some (DomainError ErrInternalError))).
Proof.
  eexists; split; [by eapply Ping_reply|]. simpl.
  repeat split.
  - intros response pingValue -> ->. done.
  - intros response -> Hno.
    destruct (response !! "ping") as [[]|]; try done.
    by edestruct Hno.
  - by intros ->.
Qed.

Lemma Taxonomy_Ping_ignores_status_witness :
  ∃ out w',
    Taxonomy.Ping (scripted [reply 503 "pong"] []) 0 (Some context.Background)
      ready_world = Some (out, w')
    ∧ out = ("pong", None).
Proof.
  edestruct (Taxonomy_Ping_ignores_status (scripted [reply 503 "pong"] []) 0
               ready_client Taxonomy.fresh_Client (Some context.Background)
               ready_world)
    as (out & Hrun & Hfound & _);
    [reflexivity | reflexivity | reflexivity | reflexivity |].
  eexists _, _. split; [exact Hrun|].
  eapply Hfound; reflexivity.
Defined.

(** ** [Flush] and [Health] of the taxonomy client *)

Section FlushHealth.
Variable env : Environment.

(** [Flush]: a transport failure and every status but 200 give
    InternalError; status 200 gives no error. *)
Theorem Flush_classification (c : nat) (o : CreditDB) (cl : http.Client)
    (ctx : option context.Context) (w : World) (req : http.Request)
    (Hc : objects w !! c = Some o)
    (Hcl : clients w !! client o = Some cl)
    (Hreq : json_request env ctx "DELETE" (host (config_ o) +:+ "/flush")
              (pagePayload (currentPage (config_ o))) = Some req) :
  match RoundTrip env (length (sent w)) req with
  | inl _ =>
      Taxonomy.Flush env c ctx w
      = Some (Some (DomainError ErrInternalError),
              after_failure w (client o) req)
  | inr resp =>
      Taxonomy.Flush env c ctx w
      = Some (if decide (http.StatusCode resp = 200%Z) then None
              else Some (DomainError ErrInternalError),
              after_reply w (client o) req)
  end.
Proof.
  destruct (RoundTrip env (length (sent w)) req) as [cause|resp] eqn:Hrep;
    unfold Taxonomy.Flush; prepare env Hc Hcl Hreq Hrep;
    by repeat case_decide.
Qed.

(** [Health]: success is solely status 200; a transport failure and
    every other status give InternalError, and the body is not read. *)
Theorem Health_classification (c : nat) (o : CreditDB) (cl : http.Client)
    (ctx : option context.Context) (w : World) (req : http.Request)
    (Hc : objects w !! c = Some o)
    (Hcl : clients w !! client o = Some cl)
    (Hreq : NewRequestWithContext env ctx "GET" (host (config_ o)) None
            = Some req) :
  match RoundTrip env (length (sent w)) req with
  | inl _ =>
      Taxonomy.Health env c ctx w
      = Some (Some (DomainError ErrInternalError),
              after_failure w (client o) req)
  | inr resp =>
      Taxonomy.Health env c ctx w
      = Some (if decide (http.StatusCode resp = 200%Z) then None
              else Some (DomainError ErrInternalError),
              after_reply w (client o) req)
  end.
Proof.
  destruct (RoundTrip env (length (sent w)) req) as [cause|resp] eqn:Hrep;
    unfold Taxonomy.Health, after_failure, after_reply; run;
    rewrite Hc, Hreq, Hcl, Hrep; [done|].
  unfold http.StatusOK. by repeat case_decide.
Qed.

End FlushHealth.

Lemma Flush_classification_witness :
  Taxonomy.Flush (scripted [reply 404 ""] []) 0 (Some context.Background)
    ready_world
  = Some (Some (DomainError ErrInternalError),
          after_reply ready_world 0
            {| http.Ctx := context.Background; http.Method := "DELETE";
               http.URL := defaultHost +:+ "/flush";
               http.Body := Some "payload";
               http.Header := {[ "Content-Type" := "application/json" ]} |}).
Proof.
  apply (Flush_classification (scripted [reply 404 ""] []) 0 ready_client
           Taxonomy.fresh_Client (Some context.Background) ready_world);
    reflexivity.
Defined.

Lemma Health_classification_witness :
  Taxonomy.Health (scripted [reply 200 ""] []) 0 (Some context.Background)
    ready_world
  = Some (None, after_reply ready_world 0 health_request).
Proof.
  apply (Health_classification (scripted [reply 200 ""] []) 0 ready_client
           Taxonomy.fresh_Client (Some context.Background) ready_world);
    reflexivity.
Defined.

(** ** The requests on the wire *)

Lemma append_empty (s : string) : s +:+ "" = s.
Proof.
  induction s as [|a s IH]; [done|].
  change (String a (s +:+ "") = String a s). by rewrite IH.
Qed.

(** Whatever the operation: the request it hands to the transport goes
    through the client's own transport, under the caller's context, with
    the method and the path of the table; an operation with a payload
    sends the payload marshalled, the current page in it verbatim, and
    the JSON content type; [Ping] and [Health] send no body and no
    header. *)
Theorem requests_follow_the_table (env : Environment) (call : Call) (c : nat)
    (o : CreditDB) (ctx : option context.Context) (w : World)
    (err : option error) (w' : World) (h : nat) (req : http.Request)
    (Hc : objects w !! c = Some o)
    (Hrun : invoke env call c ctx w = Some (err, w'))
    (Hsent : sent w' = sent w ++ [(h, req)]) :
  h = client o
  ∧ ctx = Some (http.Ctx req)
  ∧ http.Method req = (wire call o).1.1
  ∧ http.URL req = host (config_ o) +:+ (wire call o).1.2
  ∧ match (wire call o).2 with
    | Some payload =>
        http.Body req = json_Marshal env payload
        ∧ http.Header req = {[ "Content-Type" := "application/json" ]}
    | None => http.Body req = None ∧ http.Header req = ∅
    end.
Proof.
  destruct call; unfold_operations Hrun; unfold NewRequestWithContext in Hrun;
    crunch; try sent_once; rewrite ?append_empty; done.
Qed.

Lemma requests_follow_the_table_witness :
  ∃ req : http.Request,
    0 = client ready_client
    ∧ Some context.Background = Some (http.Ctx req)
    ∧ http.Method req = "POST"
    ∧ http.URL req = defaultHost +:+ "/set"
    ∧ http.Body req
      = json_Marshal (scripted [reply 200 ""] []) (setPayload "k" "v" 0%N)
    ∧ http.Header req = {[ "Content-Type" := "application/json" ]}.
Proof.
  eexists.
  eapply (requests_follow_the_table (scripted [reply 200 ""] [])
            (CallSetLine "k" "v") 0 ready_client (Some context.Background)
            ready_world).
  - reflexivity.
  - vm_compute; reflexivity.
  - reflexivity.
Defined.

(** Every operation is a single attempt and releases what it received:
    it leaves the clients and the transports of the store as they were,
    hands at most one request to the transport, and closes a response
    body exactly when a response came back. *)
Theorem one_attempt_and_release (env : Environment) (call : Call) (c : nat)
    (ctx : option context.Context) (w : World) (err : option error)
    (w' : World) (Hrun : invoke env call c ctx w = Some (err, w')) :
  objects w' = objects w ∧ clients w' = clients w
  ∧ ((sent w' = sent w ∧ closed w' = closed w)
     ∨ ∃ h req,
         sent w' = sent w ++ [(h, req)]
         ∧ closed w' = closed w
                       + match RoundTrip env (length (sent w)) req with
                         | inl _ => 0
                         | inr _ => 1
                         end).
Proof.
  destruct call; unfold_operations Hrun; crunch;
    (split; [done|split; [done|]]);
    first [ by left
          | right; eexists _, _; split; [done|];
            match goal with H : RoundTrip _ _ _ = _ |- _ => rewrite H end;
            simpl; lia ].
Qed.

Lemma one_attempt_and_release_witness :
  ∃ w' : World,
    objects w' = objects ready_world ∧ clients w' = clients ready_world
    ∧ ((sent w' = sent ready_world ∧ closed w' = closed ready_world)
       ∨ ∃ h req,
           sent w' = sent ready_world ++ [(h, req)]
           ∧ closed w' = closed ready_world
                         + match RoundTrip (scripted [reply 200 ""] [])
                                   (length (sent ready_world)) req with
                           | inl _ => 0
                           | inr _ => 1
                           end).
Proof.
  eexists.
  eapply (one_attempt_and_release (scripted [reply 200 ""] []) CallFlush 0
            (Some context.Background) ready_world).
  vm_compute; reflexivity.
Defined.

(** ** Every failure of the taxonomy client is classified *)

Lemma returned_errors_classified (err : error) :
  err ∈ returned_errors → classified err.
Proof.
  unfold returned_errors, classified, taxonomy.
  rewrite !elem_of_cons, elem_of_nil.
  intros [->|[->|[->|[]]]]; eexists; (split; [reflexivity|]); simpl;
    set_solver.
Qed.

(** Whatever the operation, its arguments, the store and the
    environment: an error that comes back is one of the package-level
    values [ErrNotFound], [ErrBadRequest], [ErrInternalError], hence a
    Domain Error of one of the five categories. *)
Lemma Taxonomy_errors_classified (env : Environment) (call : Call) (c : nat)
    (ctx : option context.Context) (w : World) (err : error) (w' : World) :
  invoke env call c ctx w = Some (Some err, w') →
  err ∈ returned_errors ∧ classified err.
Proof.
  intros Hrun.
  assert (∀ r, invoke env call c ctx w = Some (r, w') →
               r = None ∨ ∃ e, r = Some e ∧ e ∈ returned_errors) as Hall.
  { clear Hrun. intros r Hrun. unfold returned_errors.
    destruct call; unfold_operations Hrun; crunch;
      first [by left | right; eexists; split; [done | repeat constructor]]. }
  destruct (Hall _ Hrun) as [?|(e & ? & Hin)]; simplify_eq.
  split; [done | by apply returned_errors_classified].
Qed.

Lemma Taxonomy_errors_classified_witness :
  DomainError ErrNotFound ∈ returned_errors
  ∧ classified (DomainError ErrNotFound).
Proof.
  eapply (Taxonomy_errors_classified (scripted [reply 404 ""] [])
            (CallGetLine "k") 0 (Some context.Background) ready_world).
  vm_compute; reflexivity.
Defined.

(** ** Transport failures *)

(** C6, as the code has it.  Whatever the operation: when it has handed
    its request to the transport and the transport has failed, for
    whatever cause (the deadline of the caller's context elapsed, the
    context was cancelled, the connection was refused, ...), the
    operation reports the error [ErrInternalError], of category
    InternalError. *)
Theorem transport_failure_is_InternalError (env : Environment) (call : Call)
    (c : nat) (ctx : option context.Context) (w : World)
    (err : option error) (w' : World) (h : nat) (req : http.Request)
    (cause : TransportFailure)
    (Hrun : invoke env call c ctx w = Some (err, w'))
    (Hsent : sent w' = sent w ++ [(h, req)])
    (Hfail : RoundTrip env (length (sent w)) req = inl cause) :
  err = Some (DomainError ErrInternalError)
  ∧ (category_of <$> err) = Some (Some CategoryInternalError).
Proof.
  assert (err = Some (DomainError ErrInternalError)) as ->.
  { destruct call; unfold_operations Hrun; crunch;
      try sent_once; congruence. }
  done.
Qed.

Lemma transport_failure_is_InternalError_witness :
  ∃ err w',
    invoke (scripted [inl DeadlineExceeded] []) (CallGetLine "k") 0
      (Some deadline_ctx) ready_world = Some (err, w')
    ∧ err = Some (DomainError ErrInternalError)
    ∧ (category_of <$> err) = Some (Some CategoryInternalError).
Proof.
  eexists _, _. split; [vm_compute; reflexivity|].
  eapply (transport_failure_is_InternalError
            (scripted [inl DeadlineExceeded] []) (CallGetLine "k") 0
            (Some deadline_ctx) ready_world).
  - vm_compute; reflexivity.
  - reflexivity.
  - reflexivity.
Defined.

(** C6, as the specification states it, fails: [GetLine] under a context
    whose deadline elapses mid-request reports the category
    InternalError, not Timeout. *)
Lemma deadline_is_not_reported_as_Timeout :
  ∃ err w',
    invoke (scripted [inl DeadlineExceeded] []) (CallGetLine "k") 0
      (Some deadline_ctx) ready_world = Some (Some err, w')
    ∧ sent w' = [(0, {| http.Ctx := deadline_ctx; http.Method := "GET";
                        http.URL := defaultHost +:+ "/get";
                        http.Body := Some "payload";
                        http.Header :=
                          {[ "Content-Type" := "application/json" ]} |})]
    ∧ category_of err = Some CategoryInternalError
    ∧ category_of err ≠ Some CategoryTimeout.
Proof.
  eexists _, _. split; [vm_compute; reflexivity|].
  split; [reflexivity|]. split; [reflexivity | discriminate].
Qed.

(** Hence no reading of the operations reports an elapsed deadline as
    Timeout. *)
Lemma no_operation_reports_Timeout : ¬ deadline_reported_as_Timeout.
Proof.
  intros H.
  edestruct (H (scripted [inl DeadlineExceeded] []) (CallGetLine "k") 0
               (Some deadline_ctx) ready_world) as (e & He & Hcat);
    [vm_compute; reflexivity | reflexivity | reflexivity |].
  simplify_eq.
Qed.

(** ** Construction behind the health gate *)

Section Construction.
Variable env : Environment.

(** One probe: [Health] on the clone, under the background context. *)
Lemma Health_probe clone h cl w :
  objects w !! clone = Some {| config_ := Taxonomy.default_config; client := h |} →
  clients w !! h = Some cl →
  ∃ w',
    Taxonomy.Health env clone (Some context.Background) w
    = Some (if probe_ok env (length (sent w)) then None
            else Some (DomainError ErrInternalError), w')
    ∧ objects w' = objects w ∧ clients w' = clients w
    ∧ sent w' = sent w ++ (if url_Parse env defaultHost
                           then [(h, health_request)] else []).
Proof.
  intros Hc Hcl.
  unfold Taxonomy.Health, probe_ok, NewRequestWithContext. run.
  rewrite Hc; simpl.
  destruct (url_Parse env defaultHost); simpl.
  - rewrite Hcl. fold health_request.
    destruct (RoundTrip env (length (sent w)) health_request) as [cause|resp].
    + eexists; split; [reflexivity|]. done.
    + case_decide.
      * rewrite bool_decide_eq_false_2 by done. eexists; split; [reflexivity|]. done.
      * rewrite bool_decide_eq_true_2;
          [|destruct (decide (http.StatusCode resp = http.StatusOK)); done].
        eexists; split; [reflexivity|]. done.
  - eexists; split; [reflexivity|]. by rewrite app_nil_r.
Qed.

(** The retry loop over the probes: it ends without error exactly when
    one of the probes the policy still allows succeeds; it touches
    neither the clients in the store nor the transports, and everything
    it sends is a health probe of the clone's transport. *)
Lemma retry_probes clone h cl delays : ∀ w,
  objects w !! clone = Some {| config_ := Taxonomy.default_config; client := h |} →
  clients w !! h = Some cl →
  ∃ r w' k,
    retry_loop (Taxonomy.Health env clone (Some context.Background)) delays w
    = Some (r, w')
    ∧ objects w' = objects w ∧ clients w' = clients w
    ∧ sent w' = sent w ++ replicate k (h, health_request)
    ∧ (r = None →
       ∃ i, i ≤ length delays ∧ probe_ok env (length (sent w) + i) = true)
    ∧ (r ≠ None →
       ∀ i, i ≤ length delays → probe_ok env (length (sent w) + i) = false).
Proof.
  induction delays as [|d rest IH]; intros w Hc Hcl.
  - destruct (Health_probe clone h cl w Hc Hcl) as (w1 & Hrun & Ho & Hcs & Hs).
    simpl. unfold mbind, M_bind. rewrite Hrun.
    destruct (probe_ok env (length (sent w))) eqn:Hok.
    + exists None, w1, (if url_Parse env defaultHost then 1 else 0).
      split; [done|]. split; [done|]. split; [done|].
      split; [by rewrite Hs; destruct (url_Parse env defaultHost)|].
      split; [|done]. intros _. exists 0. by rewrite Nat.add_0_r.
    + exists (Some (DomainError ErrInternalError)), w1, (if url_Parse env defaultHost then 1 else 0).
      split; [done|]. split; [done|]. split; [done|].
      split; [by rewrite Hs; destruct (url_Parse env defaultHost)|].
      split; [done|]. intros _ i Hi. simpl in Hi.
      replace i with 0 by lia. by rewrite Nat.add_0_r.
  - destruct (Health_probe clone h cl w Hc Hcl) as (w1 & Hrun & Ho & Hcs & Hs).
    simpl. unfold mbind, M_bind. rewrite Hrun.
    destruct (probe_ok env (length (sent w))) eqn:Hok.
    + exists None, w1, (if url_Parse env defaultHost then 1 else 0).
      split; [done|]. split; [done|]. split; [done|].
      split; [by rewrite Hs; destruct (url_Parse env defaultHost)|].
      split; [|done]. intros _. exists 0. split; [lia|]. by rewrite Nat.add_0_r.
    + destruct (IH w1) as (r & w2 & k & Hrun2 & Ho2 & Hcs2 & Hs2 & Hnone & Hsome).
      { by rewrite Ho. } { by rewrite Hcs. }
      exists r, w2, ((if url_Parse env defaultHost then 1 else 0) + k).
      split; [done|]. split; [congruence|]. split; [congruence|].
      assert (url_Parse env defaultHost = false → ∀ n, probe_ok env n = false) as Hnever.
      { intros Hu n. unfold probe_ok. by rewrite Hu. }
      split.
      { rewrite Hs2, Hs. rewrite <- app_assoc. f_equal.
        by destruct (url_Parse env defaultHost). }
      split.
      * intros Hr. destruct (Hnone Hr) as (i & Hi & Hpi).
        destruct (url_Parse env defaultHost) eqn:Hu.
        -- exists (S i). split; [simpl; lia|].
           rewrite Hs, length_app in Hpi. simpl in Hpi.
           by replace (length (sent w) + S i) with (length (sent w) + 1 + i) by lia.
        -- by rewrite Hnever in Hpi.
      * intros Hr i Hi.
        destruct (url_Parse env defaultHost) eqn:Hu; [|by apply Hnever].
        destruct i as [|i]; [by rewrite Nat.add_0_r|].
        specialize (Hsome Hr i). rewrite Hs, length_app in Hsome. simpl in Hsome, Hi.
        replace (length (sent w) + S i) with (length (sent w) + 1 + i) by lia.
        apply Hsome. lia.
Qed.

(** C2.  [NewClient] probes under the policy with initial interval
    100ms, interval cap 30s and elapsed budget 5s.  It allocates two
    transports and every request it sends is a health probe sent through
    the second one ([probing]).  If one of the probes the budget allows
    succeeds, it returns a new client with the default host and page 0
    whose transport is the first one, which is new and is not the probing
    one; if none does, it returns nil. *)
Theorem NewClient_gate (w : World) :
  (backoff.InitialInterval Taxonomy.probe_backoff = 100 * time.Millisecond
   ∧ backoff.MaxInterval Taxonomy.probe_backoff = 30 * time.Second
   ∧ backoff.MaxElapsedTime Taxonomy.probe_backoff = 5 * time.Second)%Z
  ∧ ∃ r w' probing k,
      let budget := length (NextBackOffs env Taxonomy.probe_backoff) in
      Taxonomy.NewClient env w = Some (r, w')
      ∧ clients w' = clients w ++ [Taxonomy.fresh_Client; Taxonomy.fresh_Client]
      ∧ sent w' = sent w ++ replicate k (probing, health_request)
      ∧ probing ≠ length (clients w)
      ∧ ((∃ i, i ≤ budget ∧ probe_ok env (length (sent w) + i) = true) →
         ∃ p, r = Some p
              ∧ objects w !! p = None
              ∧ objects w' !! p
                = Some {| config_ := {| host := defaultHost; currentPage := 0 |};
                          client := length (clients w) |}
              ∧ clients w !! length (clients w) = None
              ∧ clients w' !! length (clients w) = Some Taxonomy.fresh_Client)
      ∧ ((∀ i, i ≤ budget → probe_ok env (length (sent w) + i) = false) →
         r = None).
Proof.
  split; [done|].
  unfold Taxonomy.NewClient, Retry, new_Client, new_CreditDB.
  unfold mbind, M_bind at 1 2 3. simpl.
  rewrite length_app, Nat.add_1_r; simpl.
  set (clone := fresh (dom (objects w))).
  set (w3 := {| objects := _; clients := _; sent := sent w; closed := closed w |}).
  destruct (retry_probes clone (S (length (clients w))) Taxonomy.fresh_Client
              (NextBackOffs env Taxonomy.probe_backoff) w3)
    as (r & w4 & k & Hrun & Ho & Hcs & Hs & Hnone & Hsome).
  { subst w3; simpl. by rewrite lookup_insert_eq. }
  { subst w3; simpl.
    rewrite lookup_app_r by (rewrite length_app; simpl; lia).
    rewrite length_app; simpl.
    by replace (S (length (clients w)) - (length (clients w) + 1)) with 0
      by lia. }
  unfold mbind, M_bind. rewrite Hrun.
  subst w3; simpl in *.
  assert (objects w !! clone = None) as Hfresh_clone.
  { apply not_elem_of_dom. apply is_fresh. }
  destruct r as [e|].
  - exists None, w4, (S (length (clients w))), k.
    simpl. split; [done|].
    split; [by rewrite Hcs, <- app_assoc|].
    split; [by rewrite Hs|]. split; [lia|].
    split; [|done].
    intros (i & Hi & Hok). rewrite (Hsome ltac:(done) i Hi) in Hok. done.
  - unfold mret, M_ret.
    set (p := fresh (dom (objects w4))).
    assert (objects w4 !! p = None) as Hfresh_p.
    { apply not_elem_of_dom. apply is_fresh. }
    eexists (Some p), _, (S (length (clients w))), k.
    simpl. split; [reflexivity|]. simpl.
    split; [by rewrite Hcs, <- app_assoc|].
    split; [by rewrite Hs|]. split; [lia|].
    split.
    + intros _. exists p. split; [done|].
      split; [|split; [by rewrite lookup_insert_eq|split]].
      * rewrite Ho in Hfresh_p.
        apply lookup_insert_None in Hfresh_p. tauto.
      * by apply lookup_ge_None_2.
      * rewrite Hcs, <- app_assoc, lookup_app_r by lia.
        by rewrite Nat.sub_diag.
    + intros Hall. destruct (Hnone eq_refl) as (i & Hi & Hok).
      rewrite (Hall i Hi) in Hok. done.
Qed.
End Construction.

Example NewClient_second_probe_succeeds :
  ∃ w', Taxonomy.NewClient (scripted [reply 503 ""; reply 200 ""] [1%Z; 2%Z])
          empty_world = Some (Some 1, w')
        ∧ objects w' !! 1 = Some ready_client.
Proof. eexists. split; vm_compute; reflexivity. Qed.

Example NewClient_budget_exhausted :
  ∃ w', Taxonomy.NewClient
          (scripted [reply 503 ""; inl ConnectionRefused; reply 200 ""] [1%Z])
          empty_world = Some (None, w').
Proof. eexists. vm_compute. reflexivity. Qed.

(** ** creditdb.go against the taxonomy *)

Section AdHocProtocol.
Variable env : Environment.

(** No error that an operation of creditdb.go returns is a [*Error]:
    none carries a category. *)
Lemma AdHoc_errors_carry_no_category c ctx key value w err w' :
  AdHoc.SetLine env c ctx key value w = Some (Some err, w')
  ∨ (∃ l, AdHoc.GetLine env c ctx key w = Some ((l, Some err), w'))
  ∨ (∃ ls, AdHoc.GetAllLines env c ctx w = Some ((ls, Some err), w'))
  ∨ AdHoc.DeleteLine env c ctx key w = Some (Some err, w')
  ∨ AdHoc.Flush env c ctx w = Some (Some err, w')
  ∨ (∃ s, AdHoc.Ping env c ctx w = Some ((s, Some err), w'))
  ∨ AdHoc.Health env c ctx w = Some (Some err, w') →
  category_of err = None ∧ ¬ classified err.
Proof.
  intros H.
  assert (category_of err = None) as Hcat.
  { destruct H as [H|[[l H]|[[ls H]|[H|[H|[[s H]|H]]]]]];
      unfold_adhoc H; crunch; done. }
  split; [done|].
  intros (p & -> & _). discriminate Hcat.
Qed.

Lemma AdHoc_Ping_reply c o cl ctx w req resp :
  objects w !! c = Some o →
  clients w !! client o = Some cl →
  NewRequestWithContext env ctx "GET" (host (config_ o) +:+ "/ping") None
    = Some req →
  RoundTrip env (length (sent w)) req = inr resp →
  AdHoc.Ping env c ctx w =
    Some (match json_DecodeMap env (http.RespBody resp) with
          | Some response =>
              match response !! "ping" with
              | Some (json.String pingValue) => (pingValue, None)
              | _ => ("", Some (fmtError "ping value not found in response"))
              end
          | None => ("", Some decodeError)
          end,
          after_reply w (client o) req).
Proof.
  intros Hc Hcl Hreq Hrep. unfold AdHoc.Ping, after_reply. run.
  rewrite Hc, Hreq, Hcl, Hrep.
  destruct (json_DecodeMap env _) as [response|]; [|done].
  unfold assert_string.
  by destruct (response !! "ping") as [[]|].
Qed.

Lemma AdHoc_GetLine_reply c o cl ctx key w req resp :
  objects w !! c = Some o →
  clients w !! client o = Some cl →
  json_request env ctx "GET" (host (config_ o) +:+ "/get")
    (getPayload key (currentPage (config_ o))) = Some req →
  RoundTrip env (length (sent w)) req = inr resp →
  AdHoc.GetLine env c ctx key w =
    Some (if decide (http.StatusCode resp = 404%Z)
          then (None, Some (fmtError "key not found"))
          else if decide (http.StatusCode resp = 200%Z)
          then match json_DecodeLine env (http.RespBody resp) with
               | Some data => (Some data, None)
               | None => (None, Some decodeError)
               end
          else (None,
                Some (fmt.Errorf_d "get request failed with status code: "
                        (http.StatusCode resp))),
          after_reply w (client o) req).
Proof.
  intros Hc Hcl Hreq Hrep. unfold AdHoc.GetLine.
  unfold json_request, after_reply in *. run.
  rewrite Hc.
  destruct (json_Marshal env _) as [js|]; [|done].
  destruct (NewRequestWithContext env _ _ _ _) as [req0|]; [|done].
  simplify_eq. rewrite Hcl, Hrep.
  unfold http.StatusNotFound, http.StatusOK.
  repeat case_decide; try done.
  by destruct (json_DecodeLine env _).
Qed.

Lemma AdHoc_SetLine_reply c o cl ctx key value w req resp :
  objects w !! c = Some o →
  clients w !! client o = Some cl →
  json_request env ctx "POST" (host (config_ o) +:+ "/set")
    (setPayload key value (currentPage (config_ o))) = Some req →
  RoundTrip env (length (sent w)) req = inr resp →
  AdHoc.SetLine env c ctx key value w =
    Some (if decide (http.StatusCode resp = 200%Z) then None
          else Some (fmt.Errorf_d "set request failed with status code: "
                       (http.StatusCode resp)),
          after_reply w (client o) req).
Proof.
  intros Hc Hcl Hreq Hrep. unfold AdHoc.SetLine.
  unfold json_request, after_reply in *. run.
  rewrite Hc.
  destruct (json_Marshal env _) as [js|]; [|done].
  destruct (NewRequestWithContext env _ _ _ _) as [req0|]; [|done].
  simplify_eq. rewrite Hcl, Hrep.
  unfold http.StatusOK.
  by repeat case_decide.
Qed.

End AdHocProtocol.

Lemma AdHoc_errors_carry_no_category_witness :
  category_of (fmtError "flush request failed with status code: 500") = None
  ∧ ¬ classified (fmtError "flush request failed with status code: 500").
Proof.
  eapply (AdHoc_errors_carry_no_category (scripted [reply 500 ""] []) 0
            (Some context.Background) "k" "v" ready_world).
  do 4 right. left. vm_compute; reflexivity.
Defined.

(** C1 against creditdb.go.  [GetLine] of creditdb.go, once the transport
    has answered with status 404, returns the error built by
    [fmt.Errorf("key not found")]: an error that is no Domain Error and
    has no category. *)
Theorem AdHoc_GetLine_unclassified (env : Environment) (c : nat)
    (o : CreditDB) (cl : http.Client) (ctx : option context.Context)
    (key : string) (w : World) (req : http.Request) (resp : http.Response)
    (Hc : objects w !! c = Some o)
    (Hcl : clients w !! client o = Some cl)
    (Hreq : json_request env ctx "GET" (host (config_ o) +:+ "/get")
              (getPayload key (currentPage (config_ o))) = Some req)
    (Hrep : RoundTrip env (length (sent w)) req = inr resp)
    (H404 : http.StatusCode resp = 404%Z) :
  AdHoc.GetLine env c ctx key w
  = Some ((None, Some (fmtError "key not found")), after_reply w (client o) req)
  ∧ category_of (fmtError "key not found") = None
  ∧ ¬ classified (fmtError "key not found").
Proof.
  split.
  - erewrite AdHoc_GetLine_reply by done. by rewrite decide_True.
  - split; [reflexivity|]. intros (p & Hp & _). discriminate Hp.
Qed.

Lemma AdHoc_GetLine_unclassified_witness :
  ∃ w',
    AdHoc.GetLine (scripted [reply 404 ""] []) 0 (Some context.Background)
      "k" ready_world
    = Some ((None, Some (fmtError "key not found")), w')
    ∧ category_of (fmtError "key not found") = None
    ∧ ¬ classified (fmtError "key not found").
Proof.
  eexists.
  eapply (AdHoc_GetLine_unclassified (scripted [reply 404 ""] []) 0
            ready_client Taxonomy.fresh_Client (Some context.Background) "k"
            ready_world);
    reflexivity.
Defined.

(** C4 against creditdb.go.  [SetLine] of creditdb.go has no guard: also
    with an empty key or an empty value it hands the request to the
    transport, and when the answer has status 200 it reports success. *)
Theorem AdHoc_SetLine_sends_empty_key (env : Environment) (c : nat)
    (o : CreditDB) (cl : http.Client) (ctx : option context.Context)
    (key value : string) (w : World) (req : http.Request)
    (resp : http.Response)
    (Hempty : key = "" ∨ value = "")
    (Hc : objects w !! c = Some o)
    (Hcl : clients w !! client o = Some cl)
    (Hreq : json_request env ctx "POST" (host (config_ o) +:+ "/set")
              (setPayload key value (currentPage (config_ o))) = Some req)
    (Hrep : RoundTrip env (length (sent w)) req = inr resp)
    (H200 : http.StatusCode resp = 200%Z) :
  ∃ w',
    AdHoc.SetLine env c ctx key value w = Some (None, w')
    ∧ sent w' = sent w ++ [(client o, req)].
Proof.
  eexists. split.
  - erewrite AdHoc_SetLine_reply by done. by rewrite decide_True.
  - reflexivity.
Qed.

Lemma AdHoc_SetLine_sends_empty_key_witness :
  ∃ w' req,
    AdHoc.SetLine (scripted [reply 200 ""] []) 0 (Some context.Background)
      "" "v" ready_world = Some (None, w')
    ∧ sent w' = sent ready_world ++ [(0, req)].
Proof.
  edestruct (AdHoc_SetLine_sends_empty_key (scripted [reply 200 ""] []) 0
               ready_client Taxonomy.fresh_Client (Some context.Background)
               "" "v" ready_world) as (w' & Hrun & Hsent);
    [by left | reflexivity | reflexivity | reflexivity | reflexivity
    | reflexivity |].
  eexists _, _. split; [exact Hrun | exact Hsent].
Defined.

(** C10 against creditdb.go.  [Ping] of creditdb.go, once the transport has
    answered with a body that decodes to an object without a string at
    "ping", returns the error built by
    [fmt.Errorf("ping value not found in response")], which is not
    [ErrInternalError] and has no category; the status code of the answer
    plays no part. *)
Theorem AdHoc_Ping_missing_value (env : Environment) (c : nat)
    (o : CreditDB) (cl : http.Client) (ctx : option context.Context)
    (w : World) (req : http.Request) (resp : http.Response)
    (response : gmap string json.Value)
    (Hc : objects w !! c = Some o)
    (Hcl : clients w !! client o = Some cl)
    (Hreq : NewRequestWithContext env ctx "GET" (host (config_ o) +:+ "/ping")
              None = Some req)
    (Hrep : RoundTrip env (length (sent w)) req = inr resp)
    (Hdec : json_DecodeMap env (http.RespBody resp) = Some response)
    (Hmiss : ∀ s, response !! "ping" ≠ Some (json.String s)) :
  AdHoc.Ping env c ctx w
  = Some (("", Some (fmtError "ping value not found in response")),
          after_reply w (client o) req)
  ∧ fmtError "ping value not found in response" ≠ DomainError ErrInternalError
  ∧ category_of (fmtError "ping value not found in response") = None.
Proof.
  split; [|split; [discriminate | reflexivity]].
  erewrite AdHoc_Ping_reply by done. rewrite Hdec.
  destruct (response !! "ping") as [[]|]; try done.
  by edestruct Hmiss.
Qed.

Lemma AdHoc_Ping_missing_value_witness :
  ∃ w',
    AdHoc.Ping (scripted [reply 200 "{}"] []) 0 (Some context.Background)
      ready_world
    = Some (("", Some (fmtError "ping value not found in response")), w')
    ∧ fmtError "ping value not found in response"
      ≠ DomainError ErrInternalError
    ∧ category_of (fmtError "ping value not found in response") = None.
Proof.
  eexists.
  eapply (AdHoc_Ping_missing_value (scripted [reply 200 "{}"] []) 0
            ready_client Taxonomy.fresh_Client (Some context.Background)
            ready_world _ _ ∅);
    try reflexivity.
  intros s. rewrite lookup_empty. discriminate.
Defined.

(** * Further properties of the two clients *)

(** ** Receivers: ready, nil *)

Lemma invoke_live (env : Environment) (call : Call) (c : nat)
    (ctx : option context.Context) (w : World) :
  live w c → ∃ err w', invoke env call c ctx w = Some (err, w').
Proof.
  intros (o & Hc & cl & Hcl).
  destruct call; unfold_goal; run; rewrite ?Hc; simpl;
    repeat (case_match; simplify_eq/=; rewrite ?Hc, ?Hcl in *; simplify_eq/=);
    eexists _, _; reflexivity.
Qed.

(** What one call does to the store of a client [o] at [c]: clients and
    transports stay, at most one request is added, through the transport
    of [o], to the host of [o], with the payload of the table; bodies are
    closed at most once per request; the error is one of the three. *)
Lemma invoke_effect (env : Environment) (call : Call) (c : nat) (o : CreditDB)
    (ctx : option context.Context) (w : World) (err : option error)
    (w' : World) :
  objects w !! c = Some o →
  invoke env call c ctx w = Some (err, w') →
  objects w' = objects w ∧ clients w' = clients w
  ∧ (∃ new, sent w' = sent w ++ new ∧ length new ≤ 1
            ∧ closed w ≤ closed w' ≤ closed w + length new
            ∧ Forall (λ hr, hr.1 = client o
                            ∧ http.URL hr.2
                              = host (config_ o) +:+ (wire call o).1.2
                            ∧ http.Body hr.2
                              = (wire call o).2 ≫= json_Marshal env) new)
  ∧ (err = None ∨ ∃ e, err = Some e ∧ e ∈ returned_errors).
Proof.
  intros Hc Hrun. unfold returned_errors.
  destruct call; unfold_operations Hrun; unfold NewRequestWithContext in Hrun;
    crunch; (split; [done|split; [done|split]]);
    first [ by left
          | right; eexists; split; [done | repeat constructor]
          | exists []; rewrite app_nil_r; simpl;
            split_and!; [done | lia | lia | lia | constructor]
          | eexists [_]; simpl;
            split_and!; [done | lia | lia | lia |];
            repeat constructor; simpl; rewrite ?append_empty; done ].
Qed.

(** The same for a sequence of calls, by induction on the sequence. *)
Lemma invoke_all_effect (env : Environment) (calls : list Call)
    (c : nat) (o : CreditDB) (ctx : option context.Context) (w : World)
    (Hc : objects w !! c = Some o)
    (Hcl : is_Some (clients w !! client o)) :
  ∃ errs w' new,
    invoke_all env calls c ctx w = Some (errs, w')
    ∧ length errs = length calls
    ∧ objects w' = objects w ∧ clients w' = clients w
    ∧ sent w' = sent w ++ new
    ∧ length new ≤ length calls
    ∧ closed w ≤ closed w' ≤ closed w + length new
    ∧ Forall (λ hr, hr.1 = client o
                    ∧ ∃ path, http.URL hr.2 = host (config_ o) +:+ path) new
    ∧ Forall (λ err, err = None ∨ ∃ e, err = Some e ∧ classified e) errs.
Proof.
  revert w Hc Hcl. induction calls as [|call rest IH]; intros w Hc Hcl.
  - exists [], w, []. rewrite app_nil_r. simpl.
    split_and!; try done; lia.
  - destruct (invoke_live env call c ctx w) as (err & w1 & Hrun);
      [by exists o|].
    destruct (invoke_effect _ _ _ _ _ _ _ _ Hc Hrun)
      as (Ho & Hcs & (new1 & Hs1 & Hl1 & Hcl1 & Hreq1) & Herr).
    destruct (IH w1)
      as (errs & w2 & new2 & Hrun2 & Hlen & Ho2 & Hcs2 & Hs2 & Hl2 & Hcl2
          & Hreq2 & Hall);
      [by rewrite Ho | by rewrite Hcs |].
    exists (err :: errs), w2, (new1 ++ new2).
    simpl. unfold mbind, M_bind. rewrite Hrun, Hrun2. simpl.
    rewrite length_app.
    split_and!; try done; try congruence; try lia.
    + by rewrite Hs2, Hs1, app_assoc.
    + apply Forall_app. split; [|done].
      eapply Forall_impl; [exact Hreq1|].
      intros hr (? & ? & _). eauto.
    + constructor; [|done].
      destruct Herr as [?|(e & ? & Hin)]; [by left|right].
      exists e. split; [done|]. by apply returned_errors_classified.
Qed.

(** Any sequence of calls on a ready client runs to completion without a
    panic: one result per call, each nil or a classified error; the
    configuration and the transports are left as they were; at most one
    request per call is added to the log, every one through the client's
    own transport and to the client's host; at most one body is closed
    per request. *)
Theorem sequences_run_to_completion (env : Environment) (calls : list Call)
    (c : nat) (o : CreditDB) (ctx : option context.Context) (w : World)
    (Hc : objects w !! c = Some o)
    (Hcl : is_Some (clients w !! client o)) :
  ∃ errs w' new,
    invoke_all env calls c ctx w = Some (errs, w')
    ∧ length errs = length calls
    ∧ objects w' = objects w ∧ clients w' = clients w
    ∧ sent w' = sent w ++ new
    ∧ length new ≤ length calls
    ∧ closed w ≤ closed w' ≤ closed w + length new
    ∧ Forall (λ hr, hr.1 = client o
                    ∧ ∃ path, http.URL hr.2 = host (config_ o) +:+ path) new
    ∧ Forall (λ err, err = None ∨ ∃ e, err = Some e ∧ classified e) errs.
Proof. by apply invoke_all_effect. Qed.

Lemma sequences_run_to_completion_witness :
  ∃ errs w' new,
    invoke_all (scripted [reply 200 ""; reply 404 ""] [])
      [CallSetLine "k" "v"; CallGetLine ""; CallGetLine "k"] 0
      (Some context.Background) ready_world = Some (errs, w')
    ∧ length errs = 3
    ∧ objects w' = objects ready_world ∧ clients w' = clients ready_world
    ∧ sent w' = sent ready_world ++ new
    ∧ length new ≤ 3
    ∧ closed ready_world ≤ closed w' ≤ closed ready_world + length new
    ∧ Forall (λ hr, hr.1 = client ready_client
                    ∧ ∃ path, http.URL hr.2
                              = host (config_ ready_client) +:+ path) new
    ∧ Forall (λ err, err = None ∨ ∃ e, err = Some e ∧ classified e) errs.
Proof.
  apply (sequences_run_to_completion (scripted [reply 200 ""; reply 404 ""] [])
           [CallSetLine "k" "v"; CallGetLine ""; CallGetLine "k"] 0
           ready_client (Some context.Background) ready_world).
  - reflexivity.
  - by eexists.
Defined.

(** On a receiver that points to no client (the nil that [NewClient]
    returns when the probes fail), a call with an empty key, or an empty
    value for [SetLine], still returns BadRequest, because the guard
    comes before the first field access; every other call panics, and so
    do [WithPage], [WithHost], [GetCurrentPage] and [Close]. *)
Theorem nil_receiver (env : Environment) (call : Call) (c : nat)
    (ctx : option context.Context) (w : World) (p : N) (h : string)
    (Hnil : objects w !! c = None) :
  invoke env call c ctx w
  = (if guarded call then Some (Some (DomainError ErrBadRequest), w)
     else None)
  ∧ Taxonomy.WithPage c p w = None
  ∧ Taxonomy.WithHost c h w = None
  ∧ Taxonomy.GetCurrentPage c w = None
  ∧ Taxonomy.Close c ctx w = None.
Proof.
  split.
  - destruct call; unfold_goal; unfold guarded; run;
      repeat case_bool_decide; rewrite ?decide_True, ?decide_False by done;
      rewrite ?Hnil; done.
  - unfold Taxonomy.WithPage, Taxonomy.WithHost, Taxonomy.GetCurrentPage,
      Taxonomy.Close.
    run. by rewrite Hnil.
Qed.

Lemma nil_receiver_witness :
  invoke (scripted [] []) CallPing 7 (Some context.Background) ready_world
  = None
  ∧ Taxonomy.WithPage 7 1%N ready_world = None
  ∧ Taxonomy.WithHost 7 "http://db:5622" ready_world = None
  ∧ Taxonomy.GetCurrentPage 7 ready_world = None
  ∧ Taxonomy.Close 7 (Some context.Background) ready_world = None.
Proof.
  apply (nil_receiver (scripted [] []) CallPing 7 (Some context.Background)
           ready_world 1%N "http://db:5622").
  reflexivity.
Defined.

(** ** Requests that cannot be built *)

(** With a nil context, or a host under which the URL of the call does
    not parse ([WithHost] accepts any string), an operation fails with
    InternalError, after the guard on empty keys and values, and nothing
    is sent: the store is left as it was. *)
Theorem unbuildable_request (env : Environment) (call : Call) (c : nat)
    (o : CreditDB) (ctx : option context.Context) (w : World)
    (Hc : objects w !! c = Some o)
    (Hbad : ctx = None
            ∨ url_Parse env (host (config_ o) +:+ (wire call o).1.2) = false) :
  invoke env call c ctx w
  = Some (Some (DomainError (if guarded call then ErrBadRequest
                             else ErrInternalError)), w).
Proof.
  destruct call; unfold_goal; unfold guarded, NewRequestWithContext; run;
    simpl in Hbad; rewrite ?append_empty in Hbad;
    repeat case_bool_decide; rewrite ?decide_True, ?decide_False by done;
    try done;
    rewrite ?Hc; simpl;
    repeat (case_match; simplify_eq/=); try done;
    destruct Hbad; congruence.
Qed.

Lemma unbuildable_request_witness :
  invoke (scripted [reply 200 ""] []) CallFlush 0 None ready_world
  = Some (Some (DomainError ErrInternalError), ready_world).
Proof.
  apply (unbuildable_request (scripted [reply 200 ""] []) CallFlush 0
           ready_client None ready_world).
  - reflexivity.
  - by left.
Defined.

(** ** Chains of mutators *)

Lemma WithPage_run c o w p :
  objects w !! c = Some o →
  Taxonomy.WithPage c p w = Some (c, with_object w c (set_page o p)).
Proof.
  intros Hc. unfold Taxonomy.WithPage. run.
  by rewrite Hc; simpl; rewrite Hc.
Qed.

Lemma WithHost_run c o w h :
  objects w !! c = Some o →
  Taxonomy.WithHost c h w
  = Some (c, with_object w c
               (set_host o (if decide (h = "") then host (config_ o) else h))).
Proof.
  intros Hc. unfold Taxonomy.WithHost. run.
  by rewrite Hc; simpl; rewrite Hc.
Qed.

Lemma mutators_nil c w p h :
  objects w !! c = None →
  Taxonomy.WithPage c p w = None ∧ Taxonomy.WithHost c h w = None.
Proof.
  intros Hc. unfold Taxonomy.WithPage, Taxonomy.WithHost. run.
  by rewrite Hc.
Qed.

Lemma with_object_lookup w c o : objects (with_object w c o) !! c = Some o.
Proof. apply lookup_insert_eq. Qed.

Lemma with_object_twice w c o o' :
  with_object (with_object w c o) c o' = with_object w c o'.
Proof. unfold with_object; simpl. by rewrite insert_insert_eq. Qed.

(** A fluent chain may set host and page in either order; of two
    [WithPage] the last one wins; of two [WithHost] the last non-empty
    host wins; and a chain on one client changes nothing else: every
    other client, the transports and the log are as before. *)
Theorem builder_chains (c : nat) (w : World) (h h' : string) (p p' : N) :
  (c1 ← Taxonomy.WithHost c h; Taxonomy.WithPage c1 p) w
  = (c1 ← Taxonomy.WithPage c p; Taxonomy.WithHost c1 h) w
  ∧ (c1 ← Taxonomy.WithPage c p; Taxonomy.WithPage c1 p') w
    = Taxonomy.WithPage c p' w
  ∧ (c1 ← Taxonomy.WithHost c h; Taxonomy.WithHost c1 h') w
    = Taxonomy.WithHost c (if decide (h' = "") then h else h') w
  ∧ (∀ c1 w1 c',
       (c1 ← Taxonomy.WithHost c h; Taxonomy.WithPage c1 p) w = Some (c1, w1) →
       c' ≠ c →
       c1 = c ∧ objects w1 !! c' = objects w !! c'
       ∧ clients w1 = clients w ∧ sent w1 = sent w ∧ closed w1 = closed w).
Proof.
  unfold mbind, M_bind.
  destruct (objects w !! c) as [o|] eqn:Hc.
  - rewrite !(WithPage_run c o w), !(WithHost_run c o w) by done.
    erewrite !WithPage_run, !WithHost_run by apply with_object_lookup.
    rewrite !with_object_twice.
    destruct o as [[ho pg] cl]; unfold set_page, set_host; simpl.
    repeat split; try by repeat case_decide.
    all: intros; simplify_eq/=; try done.
    by rewrite lookup_insert_ne.
  - destruct (mutators_nil c w p h Hc) as [-> ->].
    destruct (mutators_nil c w p' (if decide (h' = "") then h else h') Hc)
      as [-> ->].
    done.
Qed.

(** The configuration takes effect on the next request: after
    [WithHost h] (non-empty) and [WithPage p], the request of any
    operation goes to [h] with the path of the operation, through the
    same transport as before, and its payload carries the page [p]. *)
Theorem configuration_takes_effect (env : Environment) (call : Call) (c : nat)
    (o : CreditDB) (ctx : option context.Context) (w : World) (h : string)
    (p : N) (err : option error) (w' : World) (hd : nat) (req : http.Request)
    (Hc : objects w !! c = Some o)
    (Hh : h ≠ "")
    (Hrun : (c1 ← Taxonomy.WithHost c h; c2 ← Taxonomy.WithPage c1 p;
             invoke env call c2 ctx) w = Some (err, w'))
    (Hsent : sent w' = sent w ++ [(hd, req)]) :
  hd = client o
  ∧ http.URL req = h +:+ (wire call o).1.2
  ∧ http.Body req = (wire call (set_page o p)).2 ≫= json_Marshal env.
Proof.
  unfold mbind, M_bind in Hrun.
  rewrite (WithHost_run c o w) in Hrun by done.
  erewrite WithPage_run in Hrun by apply with_object_lookup.
  rewrite with_object_twice, decide_False in Hrun by done.
  edestruct invoke_effect as (_ & _ & (new & Hs & _ & _ & Hreq) & _);
    [apply with_object_lookup | exact Hrun |].
  simpl in Hs. rewrite Hsent in Hs. apply app_inv_head in Hs. subst new.
  apply Forall_inv in Hreq. simpl in Hreq.
  destruct Hreq as (-> & -> & ->).
  by destruct call.
Qed.

Lemma configuration_takes_effect_witness :
  ∃ req : http.Request,
    0 = client ready_client
    ∧ http.URL req = "http://db:5622" +:+ "/get"
    ∧ http.Body req
      = Some (getPayload "k" 3%N)
          ≫= json_Marshal (scripted [reply 404 ""] []).
Proof.
  eexists.
  eapply (configuration_takes_effect (scripted [reply 404 ""] [])
            (CallGetLine "k") 0 ready_client (Some context.Background)
            ready_world "http://db:5622" 3%N).
  - reflexivity.
  - discriminate.
  - vm_compute; reflexivity.
  - reflexivity.
Defined.

(** ** Construction: how many probes, and what the result is good for *)

Section Probes.
Variable env : Environment.
Hypothesis Hurl : url_Parse env defaultHost = true.

Lemma Health_probe_sent clone h cl w :
  objects w !! clone
  = Some {| config_ := Taxonomy.default_config; client := h |} →
  clients w !! h = Some cl →
  ∃ w',
    Taxonomy.Health env clone (Some context.Background) w
    = Some (if probe_ok env (length (sent w)) then None
            else Some (DomainError ErrInternalError), w')
    ∧ objects w' = objects w ∧ clients w' = clients w
    ∧ sent w' = sent w ++ [(h, health_request)].
Proof.
  intros Hc Hcl.
  destruct (Health_probe env clone h cl w Hc Hcl)
    as (w' & Hrun & Ho & Hcs & Hs).
  rewrite Hurl in Hs. eauto 10.
Qed.

(** The retry loop sends one probe after the other and stops at the
    first one that succeeds: [j] probes fail, the next one ends the
    loop. *)
Lemma retry_count clone h cl delays : ∀ w,
  objects w !! clone
  = Some {| config_ := Taxonomy.default_config; client := h |} →
  clients w !! h = Some cl →
  ∃ r w' j,
    retry_loop (Taxonomy.Health env clone (Some context.Background)) delays w
    = Some (r, w')
    ∧ objects w' = objects w ∧ clients w' = clients w
    ∧ j ≤ length delays
    ∧ sent w' = sent w ++ replicate (S j) (h, health_request)
    ∧ (∀ i, i < j → probe_ok env (length (sent w) + i) = false)
    ∧ (r = None ↔ probe_ok env (length (sent w) + j) = true)
    ∧ (r ≠ None → j = length delays).
Proof.
  induction delays as [|d rest IH]; intros w Hc Hcl;
    destruct (Health_probe_sent clone h cl w Hc Hcl)
      as (w1 & Hrun & Ho & Hcs & Hs);
    simpl; unfold mbind, M_bind; rewrite Hrun;
    destruct (probe_ok env (length (sent w))) eqn:Hok.
  - exists None, w1, 0. rewrite Nat.add_0_r.
    split_and!; try done; try (simpl; lia); try (intros; lia).
  - exists (Some (DomainError ErrInternalError)), w1, 0. rewrite Nat.add_0_r.
    split_and!; try done; try (simpl; lia); try (intros; lia);
      by rewrite Hok.
  - exists None, w1, 0. rewrite Nat.add_0_r.
    split_and!; try done; try (simpl; lia); try (intros; lia).
  - destruct (IH w1)
      as (r & w2 & j & Hrun2 & Ho2 & Hcs2 & Hj & Hs2 & Hbefore & Hlast
          & Hstop).
    { by rewrite Ho. } { by rewrite Hcs. }
    rewrite Hs, length_app in Hbefore, Hlast; simpl in Hbefore, Hlast.
    exists r, w2, (S j).
    split_and!; try done; try congruence.
    + simpl; lia.
    + rewrite Hs2, Hs, <- app_assoc. done.
    + intros [|i] Hi; [by rewrite Nat.add_0_r|].
      replace (length (sent w) + S i) with (length (sent w) + 1 + i) by lia.
      apply Hbefore. lia.
    + by replace (length (sent w) + S j) with (length (sent w) + 1 + j)
        by lia.
    + intros Hr. simpl. by rewrite (Hstop Hr).
Qed.

(** When the default host is a URL the request builder accepts,
    [NewClient] never panics and sends exactly [j + 1] probes, all
    through its second transport: the first [j] fail, and it stops at
    the first probe that succeeds or when the policy has no delay left.
    It returns a client exactly when the last probe succeeded, and nil
    only after the policy is used up.  The clients that were in the
    store are left as they were. *)
Theorem NewClient_probes (w : World) :
  ∃ r w' j,
    Taxonomy.NewClient env w = Some (r, w')
    ∧ j ≤ length (NextBackOffs env Taxonomy.probe_backoff)
    ∧ sent w'
      = sent w ++ replicate (S j) (S (length (clients w)), health_request)
    ∧ (∀ i, i < j → probe_ok env (length (sent w) + i) = false)
    ∧ (is_Some r ↔ probe_ok env (length (sent w) + j) = true)
    ∧ (r = None → j = length (NextBackOffs env Taxonomy.probe_backoff))
    ∧ (∀ c o, objects w !! c = Some o → objects w' !! c = Some o).
Proof.
  unfold Taxonomy.NewClient, Retry, new_Client, new_CreditDB.
  unfold mbind, M_bind at 1 2 3. simpl.
  rewrite length_app, Nat.add_1_r; simpl.
  set (clone := fresh (dom (objects w))).
  set (w3 := {| objects := _; clients := _; sent := sent w;
                closed := closed w |}).
  assert (objects w !! clone = None) as Hfresh_clone.
  { apply not_elem_of_dom. apply is_fresh. }
  destruct (retry_count clone (S (length (clients w))) Taxonomy.fresh_Client
              (NextBackOffs env Taxonomy.probe_backoff) w3)
    as (r & w4 & j & Hrun & Ho & Hcs & Hj & Hs & Hbefore & Hlast & Hstop).
  { subst w3; simpl. by rewrite lookup_insert_eq. }
  { subst w3; simpl.
    rewrite lookup_app_r by (rewrite length_app; simpl; lia).
    rewrite length_app; simpl.
    by replace (S (length (clients w)) - (length (clients w) + 1)) with 0
      by lia. }
  unfold mbind, M_bind. rewrite Hrun.
  subst w3; simpl in *.
  assert (∀ c o, objects w !! c = Some o → objects w4 !! c = Some o)
    as Hframe.
  { intros c o Hc. rewrite Ho, lookup_insert_ne; [done|]. congruence. }
  destruct r as [e|].
  - exists None, w4, j. split_and!; try done.
    + split; [by intros [? ?]|]. intros Hok. apply Hlast in Hok. done.
    + intros _. by apply Hstop.
  - unfold mret, M_ret.
    set (p := fresh (dom (objects w4))).
    assert (objects w4 !! p = None) as Hfresh_p.
    { apply not_elem_of_dom. apply is_fresh. }
    eexists (Some p), _, j. simpl. split_and!; try done.
    + split; [intros _; by apply Hlast | by eexists].
    + intros c o Hc. simpl. rewrite lookup_insert_ne; [by apply Hframe|].
      intros ->. rewrite (Hframe _ _ Hc) in Hfresh_p. done.
Qed.
End Probes.

Lemma NewClient_probes_witness :
  ∃ r w' j,
    Taxonomy.NewClient
      (scripted [reply 503 ""; inl ConnectionRefused; reply 200 ""]
         [1%Z; 2%Z; 4%Z]) empty_world = Some (r, w')
    ∧ j ≤ 3
    ∧ sent w' = replicate (S j) (1, health_request)
    ∧ (∀ i, i < j →
         probe_ok (scripted [reply 503 ""; inl ConnectionRefused; reply 200 ""]
                     [1%Z; 2%Z; 4%Z]) i = false)
    ∧ (is_Some r ↔
         probe_ok (scripted [reply 503 ""; inl ConnectionRefused; reply 200 ""]
                     [1%Z; 2%Z; 4%Z]) j = true)
    ∧ (r = None → j = 3)
    ∧ (∀ c o, objects empty_world !! c = Some o → objects w' !! c = Some o).
Proof.
  apply (NewClient_probes
           (scripted [reply 503 ""; inl ConnectionRefused; reply 200 ""]
              [1%Z; 2%Z; 4%Z])).
  reflexivity.
Defined.

(** What [NewClient] hands back when it hands back a client. *)
Lemma NewClient_result (env : Environment) (w : World) (p : nat) (w' : World) :
  Taxonomy.NewClient env w = Some (Some p, w') →
  objects w' !! p
  = Some {| config_ := Taxonomy.default_config; client := length (clients w) |}
  ∧ clients w' = clients w ++ [Taxonomy.fresh_Client; Taxonomy.fresh_Client]
  ∧ ∃ k, sent w'
         = sent w ++ replicate k (S (length (clients w)), health_request).
Proof.
  unfold Taxonomy.NewClient, Retry, new_Client, new_CreditDB.
  unfold mbind, M_bind at 1 2 3. simpl.
  rewrite length_app, Nat.add_1_r; simpl.
  set (clone := fresh (dom (objects w))).
  set (w3 := {| objects := _; clients := _; sent := sent w;
                closed := closed w |}).
  destruct (retry_probes env clone (S (length (clients w)))
              Taxonomy.fresh_Client
              (NextBackOffs env Taxonomy.probe_backoff) w3)
    as (r & w4 & k & Hrun & Ho & Hcs & Hs & _ & _).
  { subst w3; simpl. by rewrite lookup_insert_eq. }
  { subst w3; simpl.
    rewrite lookup_app_r by (rewrite length_app; simpl; lia).
    rewrite length_app; simpl.
    by replace (S (length (clients w)) - (length (clients w) + 1)) with 0
      by lia. }
  unfold mbind, M_bind. rewrite Hrun.
  subst w3; simpl in *.
  destruct r as [e|]; [done|].
  unfold mret, M_ret. intros ?; simplify_eq/=.
  split; [by rewrite lookup_insert_eq|].
  split; [by rewrite Hcs, <- app_assoc|].
  by exists k.
Qed.

(** The client [NewClient] returns is ready for use: any sequence of
    calls on it runs to completion without a panic, with one result per
    call, each nil or a classified error; every request of these calls
    goes to the default host through the first of the two transports
    [NewClient] allocated, while everything [NewClient] itself sent went
    through the second, which the client never uses. *)
Theorem NewClient_client_is_usable (env : Environment) (calls : list Call)
    (ctx : option context.Context) (w : World) (p : nat) (w1 : World)
    (Hnew : Taxonomy.NewClient env w = Some (Some p, w1)) :
  ∃ errs w2 new,
    invoke_all env calls p ctx w1 = Some (errs, w2)
    ∧ length errs = length calls
    ∧ sent w2 = sent w1 ++ new
    ∧ length new ≤ length calls
    ∧ Forall (λ hr, hr.1 = length (clients w)
                    ∧ ∃ path, http.URL hr.2 = defaultHost +:+ path) new
    ∧ Forall (λ hr, hr.1 = S (length (clients w)))
        (drop (length (sent w)) (sent w1))
    ∧ Forall (λ err, err = None ∨ ∃ e, err = Some e ∧ classified e) errs.
Proof.
  destruct (NewClient_result env w p w1 Hnew) as (Hp & Hcs & k & Hs).
  destruct (invoke_all_effect env calls p _ ctx w1 Hp)
    as (errs & w2 & new & Hrun & Hlen & _ & _ & Hs2 & Hl & _ & Hreq & Herr).
  { simpl. rewrite Hcs, lookup_app_r by lia.
    rewrite Nat.sub_diag. by eexists. }
  exists errs, w2, new. split_and!; try done.
  rewrite Hs, drop_app_length. by apply Forall_replicate.
Qed.

Lemma NewClient_client_is_usable_witness :
  ∃ w1 errs w2 new,
    Taxonomy.NewClient (scripted [reply 200 ""; reply 404 ""] []) empty_world
    = Some (Some 1, w1)
    ∧ invoke_all (scripted [reply 200 ""; reply 404 ""] [])
        [CallDeleteLine "k"; CallPing] 1 (Some context.Background) w1
      = Some (errs, w2)
    ∧ length errs = 2
    ∧ sent w2 = sent w1 ++ new
    ∧ length new ≤ 2
    ∧ Forall (λ hr, hr.1 = 0
                    ∧ ∃ path, http.URL hr.2 = defaultHost +:+ path) new
    ∧ Forall (λ hr, hr.1 = 1) (drop 0 (sent w1))
    ∧ Forall (λ err, err = None ∨ ∃ e, err = Some e ∧ classified e) errs.
Proof.
  eexists.
  assert (Taxonomy.NewClient (scripted [reply 200 ""; reply 404 ""] [])
            empty_world = Some (Some 1, _)) as Hnew
    by (vm_compute; reflexivity).
  destruct (NewClient_client_is_usable
              (scripted [reply 200 ""; reply 404 ""] [])
              [CallDeleteLine "k"; CallPing] (Some context.Background)
              empty_world 1 _ Hnew) as (errs & w2 & new & H).
  exists errs, w2, new. split; [exact Hnew | exact H].
Defined.

(** ** The two clients side by side *)

(** On every input the taxonomy client does not refuse at its guard,
    the two clients do the same: both panic, or both return the same
    value and leave the same store (the same request sent, the same
    body closed), and one reports an error exactly when the other
    does.  They differ in the error value only. *)
Theorem clients_agree (env : Environment) (op : Op) (c : nat)
    (ctx : option context.Context) (w : World)
    (Hfree : op_guarded op = false) :
  agree (run_Taxonomy env op c ctx w) (run_AdHoc env op c ctx w).
Proof.
  destruct op; simpl in Hfree; try apply bool_decide_eq_false in Hfree;
    unfold_both; unfold agree; run;
    rewrite ?decide_False by done;
    repeat (case_match; simplify_eq/=); done.
Qed.

Lemma clients_agree_witness :
  agree (run_Taxonomy (scripted [reply 404 ""] []) (OpGetLine "k") 0
           (Some context.Background) ready_world)
        (run_AdHoc (scripted [reply 404 ""] []) (OpGetLine "k") 0
           (Some context.Background) ready_world).
Proof. apply clients_agree. reflexivity. Defined.

Lemma Health_agree (env : Environment) (c : nat)
    (ctx : option context.Context) (w : World) :
  match Taxonomy.Health env c ctx w, AdHoc.Health env c ctx w with
  | None, None => True
  | Some (e1, w1), Some (e2, w2) => w1 = w2 ∧ (e1 = None ↔ e2 = None)
  | _, _ => False
  end.
Proof.
  unfold Taxonomy.Health, AdHoc.Health, fmt.Errorf_d. run.
  repeat (case_match; simplify_eq/=); done.
Qed.

Lemma retry_agree (env : Environment) (c : nat)
    (ctx : option context.Context) (delays : list time.Duration) : ∀ w,
  match retry_loop (Taxonomy.Health env c ctx) delays w,
        retry_loop (AdHoc.Health env c ctx) delays w with
  | None, None => True
  | Some (e1, w1), Some (e2, w2) => w1 = w2 ∧ (e1 = None ↔ e2 = None)
  | _, _ => False
  end.
Proof.
  induction delays as [|d rest IH]; intros w; simpl; unfold mbind, M_bind;
    pose proof (Health_agree env c ctx w) as H;
    destruct (Taxonomy.Health env c ctx w) as [[[e1|] w1]|],
             (AdHoc.Health env c ctx w) as [[[e2|] w2]|];
    try done; destruct H as [-> [H1 H2]];
    try (by discriminate (H1 eq_refl)); try (by discriminate (H2 eq_refl));
    try done.
  apply IH.
Qed.

(** [NewClient] of creditdb.go and [NewClient] of the taxonomy client are
    the same function of the store: the error of a failed probe differs
    (an ad hoc one there, [ErrInternalError] here), but it decides the
    retry loop only by being nil or not, and is then logged and dropped. *)
Theorem NewClient_same_in_both (env : Environment) (w : World) :
  AdHoc.NewClient env w = Taxonomy.NewClient env w.
Proof.
  unfold AdHoc.NewClient, Taxonomy.NewClient, Retry, new_Client, new_CreditDB.
  change AdHoc.probe_backoff with Taxonomy.probe_backoff.
  change AdHoc.default_config with Taxonomy.default_config.
  change AdHoc.fresh_Client with Taxonomy.fresh_Client.
  unfold mbind, M_bind; simpl.
  match goal with
  | |- context [retry_loop (AdHoc.Health env ?c ?ctx) ?d ?w0] =>
      pose proof (retry_agree env c ctx d w0) as H;
      destruct (retry_loop (Taxonomy.Health env c ctx) d w0) as [[e1 w1]|],
               (retry_loop (AdHoc.Health env c ctx) d w0) as [[e2 w2]|]
  end; try done.
  destruct H as [-> [H1 H2]].
  destruct e1 as [e1|], e2 as [e2|]; simpl; try done.
  - by discriminate (H2 eq_refl).
  - by discriminate (H1 eq_refl).
Qed.

(** creditdb.go hands the failure of the transport to its caller as it
    is: when an operation has sent its request and the transport has
    failed, the error returned is the transport's own, so that the cause
    (an elapsed deadline, a cancelled context, a refused connection) is
    still there to be inspected. *)
Theorem AdHoc_keeps_the_cause (env : Environment) (op : Op) (c : nat)
    (ctx : option context.Context) (w : World) (v : Returned)
    (err : option error) (w' : World) (h : nat) (req : http.Request)
    (cause : TransportFailure)
    (Hrun : run_AdHoc env op c ctx w = Some ((v, err), w'))
    (Hsent : sent w' = sent w ++ [(h, req)])
    (Hfail : RoundTrip env (length (sent w)) req = inl cause) :
  err = Some (urlError cause).
Proof.
  destruct op;
    unfold run_AdHoc, AdHoc.SetLine, AdHoc.GetLine, AdHoc.GetAllLines,
      AdHoc.DeleteLine, AdHoc.Flush, AdHoc.Ping, AdHoc.Health in Hrun;
    crunch; try sent_once; congruence.
Qed.

Lemma AdHoc_keeps_the_cause_witness :
  ∃ v err w',
    run_AdHoc (scripted [inl DeadlineExceeded] []) OpFlush 0
      (Some deadline_ctx) ready_world = Some ((v, err), w')
    ∧ err = Some (urlError DeadlineExceeded).
Proof.
  eexists _, _, _. split; [vm_compute; reflexivity|].
  eapply (AdHoc_keeps_the_cause (scripted [inl DeadlineExceeded] []) OpFlush 0
            (Some deadline_ctx) ready_world).
  - vm_compute; reflexivity.
  - reflexivity.
  - reflexivity.
Defined.

(** ** Reading a result *)

(** The status code tells four categories apart and lumps the rest:
    404, 400, 408 and 503 each come from exactly one category; 500 comes
    from every other category, InternalError or not; no other code is
    ever returned.  On the five errors of the package the code
    identifies the error. *)
Theorem StatusCode_identifies_category (e : Error) :
  (StatusCode e = 404%Z ↔ Category e = CategoryNotFound)
  ∧ (StatusCode e = 400%Z ↔ Category e = CategoryBadRequest)
  ∧ (StatusCode e = 408%Z ↔ Category e = CategoryTimeout)
  ∧ (StatusCode e = 503%Z ↔ Category e = CategoryServiceUnavailable)
  ∧ (StatusCode e = 500%Z ↔
       Category e ∉ [CategoryNotFound; CategoryBadRequest; CategoryTimeout;
                     CategoryServiceUnavailable])
  ∧ StatusCode e ∈ [404%Z; 400%Z; 408%Z; 503%Z; 500%Z]
  ∧ (∀ p q, StatusCode (load p) = StatusCode (load q) → p = q).
Proof.
  unfold StatusCode, http.StatusNotFound, http.StatusBadRequest,
    http.StatusRequestTimeout, http.StatusServiceUnavailable,
    http.StatusInternalServerError.
  split_and!; [..| by intros [] [] ?].
  all: destruct e as [m cat]; simpl.
  all: rewrite ?not_elem_of_cons.
  all: repeat case_decide; subst; repeat split; intros; try done;
    try (by destruct_and?; congruence); try set_solver.
Qed.

(** A result is a value or an error, never both and never neither where
    the value is a pointer: [GetLine] of either client returns a line
    exactly when it returns no error; [GetAllLines], [Ping] and [Exists]
    return the zero value (no lines, the empty string, false) with every
    error. *)
Theorem value_or_error (env : Environment) (c : nat)
    (ctx : option context.Context) (key : string) (w : World) :
  (∀ line err w', Taxonomy.GetLine env c ctx key w = Some ((line, err), w') →
     (is_Some line ↔ err = None))
  ∧ (∀ lines err w',
       Taxonomy.GetAllLines env c ctx w = Some ((lines, err), w') →
       err ≠ None → lines = [])
  ∧ (∀ s err w', Taxonomy.Ping env c ctx w = Some ((s, err), w') →
       err ≠ None → s = "")
  ∧ (∀ b err w', Taxonomy.Exists env c ctx key w = Some ((b, err), w') →
       err ≠ None → b = false)
  ∧ (∀ line err w', AdHoc.GetLine env c ctx key w = Some ((line, err), w') →
       (is_Some line ↔ err = None))
  ∧ (∀ lines err w',
       AdHoc.GetAllLines env c ctx w = Some ((lines, err), w') →
       err ≠ None → lines = [])
  ∧ (∀ s err w', AdHoc.Ping env c ctx w = Some ((s, err), w') →
       err ≠ None → s = "").
Proof.
  split_and!; intros * Hrun;
    unfold Taxonomy.Exists, Taxonomy.GetLine, Taxonomy.GetAllLines,
      Taxonomy.Ping, AdHoc.GetLine, AdHoc.GetAllLines, AdHoc.Ping,
      assert_string in Hrun;
    crunch; try done; try (split; [by intros [? ?] | done]);
    try (split; [done | by eexists]).
Qed.

Lemma value_or_error_witness :
  ∃ line err w',
    Taxonomy.GetLine (scripted [reply 200 "v"] []) 0
      (Some context.Background) "k" ready_world = Some ((line, err), w')
    ∧ (is_Some line ↔ err = None).
Proof.
  eexists _, _, _. split; [vm_compute; reflexivity|].
  eapply (proj1 (value_or_error (scripted [reply 200 "v"] []) 0
                   (Some context.Background) "k" ready_world)).
  vm_compute; reflexivity.
Defined.

(** [Exists] read backwards.  It never returns [ErrNotFound]; it answers
    true exactly when a request was sent and answered with status 200
    and a body that decodes to a line; it answers false without an error
    exactly when a request was sent and answered with status 404. *)
Theorem Exists_true_iff (env : Environment) (c : nat)
    (ctx : option context.Context) (key : string) (w : World) (b : bool)
    (err : option error) (w' : World)
    (Hrun : Taxonomy.Exists env c ctx key w = Some ((b, err), w')) :
  err ≠ Some (DomainError ErrNotFound)
  ∧ (b = true ↔
       ∃ h req resp data,
         sent w' = sent w ++ [(h, req)]
         ∧ RoundTrip env (length (sent w)) req = inr resp
         ∧ http.StatusCode resp = 200%Z
         ∧ json_DecodeLine env (http.RespBody resp) = Some data)
  ∧ (b = false ∧ err = None ↔
       ∃ h req resp,
         sent w' = sent w ++ [(h, req)]
         ∧ RoundTrip env (length (sent w)) req = inr resp
         ∧ http.StatusCode resp = 404%Z).
Proof.
  unfold Taxonomy.Exists, Taxonomy.GetLine, http.StatusNotFound,
    http.StatusOK in Hrun.
  crunch; (split; [done|]); split; split;
    try (by intros [? ?]); try done;
    try (by intros (h0 & req0 & resp0 & Hs & Hr & Hst);
            try sent_once; congruence);
    try (by intros (h0 & req0 & resp0 & data0 & Hs & Hr & Hst & Hd);
            try sent_once; congruence);
    try (by intros; eexists _, _, _; split_and!; try done;
            by apply dec_stable);
    try (by intros; eexists _, _, _, _; split_and!; try done;
            by apply dec_stable).
Qed.

Lemma Exists_true_iff_witness :
  ∃ b err w',
    Taxonomy.Exists (scripted [reply 404 ""] []) 0 (Some context.Background)
      "k" ready_world = Some ((b, err), w')
    ∧ err ≠ Some (DomainError ErrNotFound)
    ∧ (b = true ↔
         ∃ h req resp data,
           sent w' = sent ready_world ++ [(h, req)]
           ∧ RoundTrip (scripted [reply 404 ""] [])
               (length (sent ready_world)) req = inr resp
           ∧ http.StatusCode resp = 200%Z
           ∧ json_DecodeLine (scripted [reply 404 ""] []) (http.RespBody resp)
             = Some data)
    ∧ (b = false ∧ err = None ↔
         ∃ h req resp,
           sent w' = sent ready_world ++ [(h, req)]
           ∧ RoundTrip (scripted [reply 404 ""] [])
               (length (sent ready_world)) req = inr resp
           ∧ http.StatusCode resp = 404%Z).
Proof.
  eexists _, _, _. split; [vm_compute; reflexivity|].
  apply (Exists_true_iff (scripted [reply 404 ""] []) 0
           (Some context.Background) "k" ready_world).
  vm_compute; reflexivity.
Defined.

(** Where an error of the taxonomy client comes from.  NotFound is only
    ever reported by [GetLine] and [DeleteLine], and only after a reply
    with status 404.  BadRequest is reported either at the guard, for an
    empty key or value, with nothing sent; or after a reply: by
    [GetAllLines] when the body decodes to a page whose status is not
    ["OK"], by every other operation when the status code is not 200. *)
Theorem provenance (env : Environment) (call : Call) (c : nat)
    (ctx : option context.Context) (w : World) (e : error) (w' : World)
    (Hrun : invoke env call c ctx w = Some (Some e, w')) :
  (category_of e = Some CategoryNotFound →
     (∃ key, call = CallGetLine key ∨ call = CallDeleteLine key)
     ∧ ∃ h req resp,
         sent w' = sent w ++ [(h, req)]
         ∧ RoundTrip env (length (sent w)) req = inr resp
         ∧ http.StatusCode resp = 404%Z)
  ∧ (category_of e = Some CategoryBadRequest →
       (guarded call = true ∧ w' = w)
       ∨ ∃ h req resp,
           sent w' = sent w ++ [(h, req)]
           ∧ RoundTrip env (length (sent w)) req = inr resp
           ∧ ((call ≠ CallGetAllLines ∧ http.StatusCode resp ≠ 200%Z)
              ∨ (call = CallGetAllLines
                 ∧ ∃ page,
                     json_DecodePage env (http.RespBody resp) = Some page
                     ∧ Status page ≠ "OK"))).
Proof.
  unfold guarded.
  destruct call; unfold_operations Hrun;
    unfold http.StatusNotFound, http.StatusOK in Hrun; crunch;
    (split; [intros Hcat; try discriminate Hcat
            | intros Hcat; try discriminate Hcat]).
  all: try (split; [eauto|]; eexists _, _, _; split_and!; done).
  all: try (by left; split; [apply bool_decide_eq_true_2|]).
  all: try (by left).
  all: try (right; eexists _, _, _; split_and!; try done; by eauto).
Qed.

Lemma provenance_witness :
  ∃ w',
    invoke (scripted [reply 404 ""] []) (CallDeleteLine "k") 0
      (Some context.Background) ready_world
    = Some (Some (DomainError ErrNotFound), w')
    ∧ (∃ key, CallDeleteLine "k" = CallGetLine key
              ∨ CallDeleteLine "k" = CallDeleteLine key)
    ∧ ∃ h req resp,
        sent w' = sent ready_world ++ [(h, req)]
        ∧ RoundTrip (scripted [reply 404 ""] [])
            (length (sent ready_world)) req = inr resp
        ∧ http.StatusCode resp = 404%Z.
Proof.
  eexists. split; [vm_compute; reflexivity|].
  eapply (proj1 (provenance (scripted [reply 404 ""] []) (CallDeleteLine "k")
                   0 (Some context.Background) ready_world
                   (DomainError ErrNotFound) _ _)).
  reflexivity.
  Unshelve. vm_compute; reflexivity.
Defined.
